(** * Launch.cpp: the guarded main of the engine launcher

    A shallow embedding of [Engine/Source/Runtime/Launch/Private/Launch.cpp]:
    [EnginePreInit], [EngineInit], [EngineTick], [EngineExit] and
    [GuardedMain], together with the scope guard [EngineLoopCleanupGuard]
    declared inside [GuardedMain].

    The engine loop [GEngineLoop], the platform layer and the tracing macros
    are collaborators of the file: they are taken as parameters acting on an
    opaque engine state.  Every call that [GuardedMain] makes is recorded in
    an event trace, so that orderings and invocation counts can be stated.
    The two [while] loops of the function are given fuel; a run whose fuel is
    used up inside a loop is reported as [Running] together with the trace it
    has produced so far, so that statements quantified over all fuel also
    cover the finite prefixes of runs that never leave a loop. *)

From Stdlib Require Import List ZArith Bool String Lia Arith Sorted.
Import ListNotations.

Set Implicit Arguments.

(** ** Values and build configuration *)

(** [int32] error levels.  The launcher only compares them with zero and
    passes them on, so no wrap-around arithmetic is involved. *)
Definition int32 : Type := Z.
Bind Scope Z_scope with int32.

(** The preprocessor conditions that select code inside [GuardedMain]. *)
Record FBuild : Type := {
  UE_BUILD_SHIPPING : bool;
  WITH_EDITOR : bool;
  PLATFORM_WINDOWS : bool
}.

(** [FTrackedActivity::ELight], as far as [GuardedMain] uses it. *)
Inductive ELight : Type := Yellow | Green.

(** Calls into the platform layer and the tracing helpers whose result
    [GuardedMain] does not look at. *)
Inductive Call : Type :=
| TrackedActivity_Update (Status : string) (Light : option ELight)
| FTaskTagScope_ctor
| FTaskTagScope_dtor
| FPlatformProcess_Sleep
| UE_DEBUG_BREAK
| BootTimingPoint (Name : string)
| PreMainInitDelegate_Broadcast
| MiniDumpFilename_Strcpy
| FScopedSlowTask_ctor (AmountOfWork : Z)
| EnterProgressFrame (ExpectedWorkThisFrame : Z)
| FScopedSlowTask_dtor
| LogEngineInitializationTime
| ACCUM_LOADTIME
| DumpBootTiming
| TRACE_BOOKMARK (Text : string).

(** The two places where [GuardedMain] calls [IsEngineExitRequested]. *)
Inductive CheckSite : Type := AfterPreInit | LoopBoundary.

(** What a run of the launcher does, in program order. *)
Inductive Event : Type :=
| EvCall (c : Call)
| EvIsDebuggerPresent (b : bool)
| EvGuardCtor
| EvGuardDtor
| EvPreInit (ErrorLevel : int32)
| EvExitCheck (site : CheckSite) (b : bool)
| EvEngineInit (ErrorLevel : int32)
| EvEditorInit (ErrorLevel : int32)
| EvTick
| EvEditorExit
| EvRequestEngineExit
| EvLoopExit.

Section Launcher.

(** The state of the engine loop and of the platform, opaque to
    [Launch.cpp]. *)
Variable E : Type.

(** The process-wide state [Launch.cpp] reads: the exit request behind
    [IsEngineExitRequested], [GUELibraryOverrideSettings.bIsEmbedded], and
    the engine state. *)
Record Process : Type := {
  GIsRequestingExit : bool;
  bIsEmbedded : bool;
  engine : E
}.

(** What a collaborator hands back: its return value, the engine state it
    leaves, and whether it called [RequestEngineExit] on the way.  A
    collaborator sees the whole process state but reaches the exit request
    only through the query/set pair, and the override settings belong to
    the embedding host. *)
Record Reply (A : Type) : Type := {
  value : A;
  engine' : E;
  RequestedExit : bool
}.

Definition Op (A : Type) : Type := Process -> Reply A.

(** The collaborators of [Launch.cpp]. *)
Record Externals : Type := {
  FParse_Param : string -> string -> bool;
  GIsEditor : E -> bool;
  IsDebuggerPresent : Op bool;
  platform : Call -> Op unit;
  Loop_PreInit : string -> Op int32;
  Loop_Init : Op int32;
  Loop_Tick : Op unit;
  Loop_Exit : Op unit;
  EditorInit : Op int32;
  EditorExit : Op unit
}.

Variable X : Externals.

(** ** Runs *)

Inductive Outcome (A : Type) : Type :=
| Returned (a : A) (p : Process) (t : list Event)
| Running (p : Process) (t : list Event).

Arguments Running {A} p t.

Definition M (A : Type) : Type := Process -> Outcome A.

Definition ret {A} (a : A) : M A := fun p => Returned a p [].

Definition bind {A B} (m : M A) (k : A -> M B) : M B :=
  fun p =>
    match m p with
    | Returned a p1 t1 =>
        match k a p1 with
        | Returned b p2 t2 => Returned b p2 (t1 ++ t2)
        | Running p2 t2 => Running p2 (t1 ++ t2)
        end
    | Running p1 t1 => Running p1 t1
    end.

(** Fuel used up inside a loop. *)
Definition spin {A} : M A := fun p => Running p [].

Definition trace_of {A} (o : Outcome A) : list Event :=
  match o with Returned _ _ t => t | Running _ t => t end.

Definition result_of {A} (o : Outcome A) : option A :=
  match o with Returned a _ _ => Some a | Running _ _ => None end.

Definition process_of {A} (o : Outcome A) : Process :=
  match o with Returned _ p _ => p | Running p _ => p end.

Local Notation "x <- m ;; k" := (bind m (fun x => k))
  (at level 61, m at next level, right associativity).
Local Notation "m ;; k" := (bind m (fun _ => k))
  (at level 61, right associativity).

(** Calling a collaborator: the engine state is replaced, an exit request
    made during the call is latched, and the call is recorded. *)
Definition invoke {A} (op : Op A) (ev : A -> Event) : M A :=
  fun p =>
    let r := op p in
    Returned (value r)
      {| GIsRequestingExit := GIsRequestingExit p || RequestedExit r;
         bIsEmbedded := bIsEmbedded p;
         engine := engine' r |}
      [ev (value r)].

Definition call (c : Call) : M unit :=
  invoke (platform X c) (fun _ => EvCall c).

Definition emit (e : Event) : M unit := fun p => Returned tt p [e].

(** A C++ object with automatic storage: constructed, then the rest of
    its scope runs, then it is destroyed.  The value of a [return]
    statement is computed before the destructor runs. *)
Definition scoped {A} (ctor dtor : M unit) (body : M A) : M A :=
  ctor ;; a <- body ;; dtor ;; ret a.

Definition when (b : bool) (m : M unit) : M unit :=
  if b then m else ret tt.

(** ** The exit request *)

(** Modelled from the spec: [IsEngineExitRequested] of CoreGlobals is not
    part of [Launch.cpp]; it is the query of the process-wide
    "exit requested" query/set pair. *)
Definition IsEngineExitRequested (site : CheckSite) : M bool :=
  fun p => Returned (GIsRequestingExit p) p
             [EvExitCheck site (GIsRequestingExit p)].

(** Modelled from the spec: [RequestEngineExit] of CoreGlobals is not part
    of [Launch.cpp]; it is the setter of the same pair, and the reason
    string is only logged. *)
Definition RequestEngineExit (ReasonString : string) : M unit :=
  fun p => Returned tt
             {| GIsRequestingExit := true;
                bIsEmbedded := bIsEmbedded p;
                engine := engine p |}
             [EvRequestEngineExit].

(** ** The functions of Launch.cpp *)

Definition EnginePreInit (CmdLine : string) : M int32 :=
  invoke (Loop_PreInit X CmdLine) EvPreInit.

Definition EngineInit : M int32 :=
  invoke (Loop_Init X) EvEngineInit.

Definition EngineTick : M unit :=
  invoke (Loop_Tick X) (fun _ => EvTick).

Definition EngineExit : M unit :=
  RequestEngineExit "EngineExit() was called" ;;
  invoke (Loop_Exit X) (fun _ => EvLoopExit).

(** [while (!FPlatformMisc::IsDebuggerPresent()) Sleep(0.1f);] *)
Fixpoint WaitForDebugger (fuel : nat) : M unit :=
  match fuel with
  | O => spin
  | S fuel' =>
      present <- invoke (IsDebuggerPresent X) EvIsDebuggerPresent ;;
      if present then ret tt
      else call FPlatformProcess_Sleep ;; WaitForDebugger fuel'
  end.

(** The block under [#if !(UE_BUILD_SHIPPING)]. *)
Definition DebugAttachGate (B : FBuild) (fuel : nat) (CmdLine : string)
  : M unit :=
  when (negb (UE_BUILD_SHIPPING B))
    (when (FParse_Param X CmdLine "waitforattach"
           || FParse_Param X CmdLine "WaitForDebugger")
       (WaitForDebugger fuel ;; call UE_DEBUG_BREAK)).

(** [~EngineLoopCleanupGuard()] *)
Definition CleanupGuard_dtor : M unit :=
  emit EvGuardDtor ;;
  (fun p => when (negb (bIsEmbedded p)) EngineExit p).

(** [while (!IsEngineExitRequested()) EngineTick();] *)
Fixpoint TickLoop (fuel : nat) : M unit :=
  match fuel with
  | O => spin
  | S fuel' =>
      requested <- IsEngineExitRequested LoopBoundary ;;
      if requested then ret tt
      else EngineTick ;; TickLoop fuel'
  end.

(** The process after [n] calls of [EngineTick]. *)
Fixpoint ticked (n : nat) (p : Process) : Process :=
  match n with
  | O => p
  | S n' => ticked n' (process_of (EngineTick p))
  end.

Definition InEditor (B : FBuild) : M bool :=
  fun p => ret (WITH_EDITOR B && GIsEditor X (engine p)) p.

Definition GuardedMain (B : FBuild) (fuel : nat) (CmdLine : string)
  : M int32 :=
  call (TrackedActivity_Update "Starting" (Some Yellow)) ;;
  scoped (call FTaskTagScope_ctor) (call FTaskTagScope_dtor)
    (DebugAttachGate B fuel CmdLine ;;
     call (BootTimingPoint "DefaultMain") ;;
     call PreMainInitDelegate_Broadcast ;;
     scoped (emit EvGuardCtor) CleanupGuard_dtor
       (when (PLATFORM_WINDOWS B) (call MiniDumpFilename_Strcpy) ;;
        call (TrackedActivity_Update "Initializing" None) ;;
        ErrorLevel <- EnginePreInit CmdLine ;;
        stop <- (if negb (ErrorLevel =? 0)%Z then ret true
                 else IsEngineExitRequested AfterPreInit) ;;
        if stop then ret ErrorLevel
        else
          ErrorLevel <-
            scoped (call (FScopedSlowTask_ctor 100))
                   (call FScopedSlowTask_dtor)
              (call (EnterProgressFrame 80) ;;
               call (EnterProgressFrame 20) ;;
               editor <- InEditor B ;;
               if editor then invoke (EditorInit X) EvEditorInit
               else EngineInit) ;;
          call LogEngineInitializationTime ;;
          call ACCUM_LOADTIME ;;
          call (BootTimingPoint "Tick loop starting") ;;
          call DumpBootTiming ;;
          call (TrackedActivity_Update "Ticking loop" (Some Green)) ;;
          embedded <- (fun p => ret (bIsEmbedded p) p) ;;
          when (negb embedded) (TickLoop fuel) ;;
          call (TRACE_BOOKMARK "Tick loop end") ;;
          editor <- InEditor B ;;
          when editor (invoke (EditorExit X) (fun _ => EvEditorExit)) ;;
          ret ErrorLevel)).

(** What no step of the launcher undoes: the embedded setting is left
    alone and a pending exit request stays pending. *)
Definition latched (p p' : Process) : Prop :=
  bIsEmbedded p' = bIsEmbedded p
  /\ (GIsRequestingExit p = true -> GIsRequestingExit p' = true).

(** Events that happened before an outcome. *)
Definition prefix {A} (t : list Event) (o : Outcome A) : Outcome A :=
  match o with
  | Returned a p t' => Returned a p (t ++ t')
  | Running p t' => Running p (t ++ t')
  end.

End Launcher.

Arguments Running {E A} p t.
Arguments Returned {E A} a p t.

(** ** Reading traces *)

Definition count (f : Event -> bool) (t : list Event) : nat :=
  List.length (filter f t).

Definition is_tick (e : Event) : bool :=
  match e with EvTick => true | _ => false end.

Definition is_init (e : Event) : bool :=
  match e with EvEngineInit _ | EvEditorInit _ => true | _ => false end.

Definition is_preinit (e : Event) : bool :=
  match e with EvPreInit _ => true | _ => false end.

(** The exit phase is a call of [GEngineLoop.Exit()]. *)
Definition is_exit_phase (e : Event) : bool :=
  match e with EvLoopExit => true | _ => false end.

Definition is_exit_request (e : Event) : bool :=
  match e with EvRequestEngineExit => true | _ => false end.

Definition is_broadcast (e : Event) : bool :=
  match e with EvCall PreMainInitDelegate_Broadcast => true | _ => false end.

(** What the debug attach gate does. *)
Definition is_gate_event (e : Event) : bool :=
  match e with
  | EvIsDebuggerPresent _ | EvCall FPlatformProcess_Sleep
  | EvCall UE_DEBUG_BREAK => true
  | _ => false
  end.

(** The events of a trace that [f] selects, read off in order. *)
Fixpoint pick {A} (f : Event -> option A) (t : list Event) : list A :=
  match t with
  | [] => []
  | e :: t' =>
      match f e with
      | Some a => a :: pick f t'
      | None => pick f t'
      end
  end.

Definition loop_check (e : Event) : option bool :=
  match e with EvExitCheck LoopBoundary b => Some b | _ => None end.

Definition preinit_level (e : Event) : option int32 :=
  match e with EvPreInit v => Some v | _ => None end.

Definition init_level (e : Event) : option int32 :=
  match e with EvEngineInit v | EvEditorInit v => Some v | _ => None end.

(** The values observed by the exit checks of the tick loop, in order. *)
Definition loop_checks : list Event -> list bool := pick loop_check.

(** The error levels that PreInit returned. *)
Definition preinit_levels : list Event -> list int32 := pick preinit_level.

(** The error levels that Init returned, whichever initialiser was
    dispatched to. *)
Definition init_levels : list Event -> list int32 := pick init_level.

(** The [while] statement of the tick loop was reached: its condition was
    evaluated at least once. *)
Definition tick_loop_entered (t : list Event) : Prop :=
  exists b, In (EvExitCheck LoopBoundary b) t.

(** ** The shape of a run *)

Definition entry : list Event :=
  [EvCall (TrackedActivity_Update "Starting" (Some Yellow));
   EvCall FTaskTagScope_ctor].

(** [n] polls of the debugger that found none. *)
Fixpoint waiting (n : nat) : list Event :=
  match n with
  | O => []
  | S n' =>
      EvIsDebuggerPresent false :: EvCall FPlatformProcess_Sleep :: waiting n'
  end.

(** [n] complete iterations of the tick loop. *)
Fixpoint iterations (n : nat) : list Event :=
  match n with
  | O => []
  | S n' => EvExitCheck LoopBoundary false :: EvTick :: iterations n'
  end.

(** The gate is compiled out or not asked for, or the debugger showed up
    after [n] polls. *)
Inductive GateDone (fuel : nat) : list Event -> Prop :=
| gate_skipped : GateDone fuel []
| gate_attached n :
    n < fuel ->
    GateDone fuel
      (waiting n ++ [EvIsDebuggerPresent true; EvCall UE_DEBUG_BREAK]).

Definition before_preinit (B : FBuild) : list Event :=
  [EvCall (BootTimingPoint "DefaultMain");
   EvCall PreMainInitDelegate_Broadcast;
   EvGuardCtor]
  ++ (if PLATFORM_WINDOWS B then [EvCall MiniDumpFilename_Strcpy] else [])
  ++ [EvCall (TrackedActivity_Update "Initializing" None)].

Definition init_section (i : Event) : list Event :=
  [EvExitCheck AfterPreInit false;
   EvCall (FScopedSlowTask_ctor 100);
   EvCall (EnterProgressFrame 80);
   EvCall (EnterProgressFrame 20);
   i;
   EvCall FScopedSlowTask_dtor;
   EvCall LogEngineInitializationTime;
   EvCall ACCUM_LOADTIME;
   EvCall (BootTimingPoint "Tick loop starting");
   EvCall DumpBootTiming;
   EvCall (TrackedActivity_Update "Ticking loop" (Some Green))].

Definition epilogue (editor : bool) : list Event :=
  EvCall (TRACE_BOOKMARK "Tick loop end")
  :: (if editor then [EvEditorExit] else []).

(** Leaving the scope of [GuardedMain]: the guard goes first, the task tag
    scope last. *)
Definition unwind (embedded : bool) : list Event :=
  EvGuardDtor
  :: (if embedded then [] else [EvRequestEngineExit; EvLoopExit])
  ++ [EvCall FTaskTagScope_dtor].

Definition InitEvent (B : FBuild) (e : int32) (i : Event) : Prop :=
  i = EvEngineInit e \/ (WITH_EDITOR B = true /\ i = EvEditorInit e).

Section Shape.

Variable E : Type.
Variable B : FBuild.
Variable fuel : nat.
Variable embedded : bool.

(** Every way a run of [GuardedMain] can look. *)
Inductive LaunchRun : Outcome E int32 -> Prop :=
| run_in_gate p :
    LaunchRun (Running p (entry ++ waiting fuel))
| run_preinit_failed g e p :
    GateDone fuel g -> e <> 0%Z ->
    (embedded = false -> GIsRequestingExit p = true) ->
    LaunchRun
      (Returned e p
         (entry ++ g ++ before_preinit B ++ [EvPreInit e]
          ++ unwind embedded))
| run_exit_requested g p :
    GateDone fuel g ->
    GIsRequestingExit p = true ->
    LaunchRun
      (Returned 0%Z p
         (entry ++ g ++ before_preinit B
          ++ [EvPreInit 0%Z; EvExitCheck AfterPreInit true]
          ++ unwind embedded))
| run_embedded g i e ed p :
    GateDone fuel g -> InitEvent B e i ->
    (ed = true -> WITH_EDITOR B = true) ->
    embedded = true ->
    LaunchRun
      (Returned e p
         (entry ++ g ++ before_preinit B ++ [EvPreInit 0%Z]
          ++ init_section i ++ epilogue ed ++ unwind true))
| run_ticking g i e p :
    GateDone fuel g -> InitEvent B e i ->
    embedded = false ->
    LaunchRun
      (Running p
         (entry ++ g ++ before_preinit B ++ [EvPreInit 0%Z]
          ++ init_section i ++ iterations fuel))
| run_completed g i e n ed p :
    GateDone fuel g -> InitEvent B e i ->
    (ed = true -> WITH_EDITOR B = true) ->
    embedded = false -> n < fuel ->
    GIsRequestingExit p = true ->
    LaunchRun
      (Returned e p
         (entry ++ g ++ before_preinit B ++ [EvPreInit 0%Z]
          ++ init_section i ++ iterations n
          ++ [EvExitCheck LoopBoundary true]
          ++ epilogue ed ++ unwind false)).

End Shape.

(** ** Scoped resources *)

(** The objects with automatic storage in [GuardedMain]. *)
Inductive Resource : Type := TaskTagScope | CleanupGuard | SlowTask.

Definition acquired (e : Event) : option Resource :=
  match e with
  | EvCall FTaskTagScope_ctor => Some TaskTagScope
  | EvGuardCtor => Some CleanupGuard
  | EvCall (FScopedSlowTask_ctor _) => Some SlowTask
  | _ => None
  end.

Definition released (e : Event) : option Resource :=
  match e with
  | EvCall FTaskTagScope_dtor => Some TaskTagScope
  | EvGuardDtor => Some CleanupGuard
  | EvCall FScopedSlowTask_dtor => Some SlowTask
  | _ => None
  end.

(** The resources of a run in the order they were acquired, and in the
    order they were released. *)
Definition acquisitions : list Event -> list Resource := pick acquired.
Definition releases : list Event -> list Resource := pick released.

(** The guard is the first resource acquired and the last released. *)
Definition guard_first_in_last_out (t : list Event) : Prop :=
  hd_error (acquisitions t) = Some CleanupGuard
  /\ hd_error (rev (releases t)) = Some CleanupGuard.

(** ** The progress accountant *)

(** Modelled from the spec: [FScopedSlowTask] is declared in
    Misc/ScopedSlowTask.h, which is not part of [Launch.cpp].  Sections 3
    and 4.2 of the specification: a task has a fixed budget; entering a
    progress frame reserves a slice of it, and the slice left behind counts
    as consumed; the phase that runs inside a slice reports sub-steps, which
    advance it but never beyond the slice. *)
Record FSlowTask : Type := {
  TotalAmountOfWork : Z;
  CompletedWork : Z;
  CurrentFrameScope : Z;
  FrameProgress : Z
}.

Definition SlowTask_begin (AmountOfWork : Z) : FSlowTask :=
  {| TotalAmountOfWork := AmountOfWork; CompletedWork := 0;
     CurrentFrameScope := 0; FrameProgress := 0 |}.

Definition SlowTask_enter (ExpectedWorkThisFrame : Z) (k : FSlowTask)
  : FSlowTask :=
  {| TotalAmountOfWork := TotalAmountOfWork k;
     CompletedWork := CompletedWork k + CurrentFrameScope k;
     CurrentFrameScope := ExpectedWorkThisFrame;
     FrameProgress := 0 |}.

Definition SlowTask_advance (step : Z) (k : FSlowTask) : FSlowTask :=
  {| TotalAmountOfWork := TotalAmountOfWork k;
     CompletedWork := CompletedWork k;
     CurrentFrameScope := CurrentFrameScope k;
     FrameProgress :=
       Z.min (CurrentFrameScope k) (FrameProgress k + Z.max 0 step) |}.

(** The percentage shown for a task. *)
Definition percentage (k : FSlowTask) : Z :=
  ((CompletedWork k + FrameProgress k) * 100 / TotalAmountOfWork k)%Z.

(** The percentages shown while a phase reports [steps] inside the current
    slice, and the task it leaves. *)
Fixpoint report_steps (steps : list Z) (k : FSlowTask)
  : list Z * FSlowTask :=
  match steps with
  | [] => ([], k)
  | s :: steps' =>
      let k' := SlowTask_advance s k in
      let (shown, k'') := report_steps steps' k' in
      (percentage k' :: shown, k'')
  end.

(** The percentages shown during a run, where [steps] are the sub-steps
    that the initialiser reports. *)
Fixpoint progress_shown (steps : list Z) (task : option FSlowTask)
  (t : list Event) : list Z :=
  match t with
  | [] => []
  | e :: t' =>
      match e, task with
      | EvCall (FScopedSlowTask_ctor n), _ =>
          let k := SlowTask_begin n in
          percentage k :: progress_shown steps (Some k) t'
      | EvCall (EnterProgressFrame w), Some k =>
          let k' := SlowTask_enter w k in
          percentage k' :: progress_shown steps (Some k') t'
      | (EvEngineInit _ | EvEditorInit _), Some k =>
          let (shown, k') := report_steps steps k in
          shown ++ progress_shown steps (Some k') t'
      | EvCall FScopedSlowTask_dtor, _ => progress_shown steps None t'
      | _, _ => progress_shown steps task t'
      end
  end.

(** The events that leave the progress display alone. *)
Definition progress_neutral (e : Event) : bool :=
  match e with
  | EvCall (FScopedSlowTask_ctor _) | EvCall (EnterProgressFrame _)
  | EvCall FScopedSlowTask_dtor | EvEngineInit _ | EvEditorInit _ => false
  | _ => true
  end.

(** ** A scripted engine *)

(** An engine loop that follows a script; it is used to run the launcher on
    concrete inputs. *)
Record Bench : Type := { polls : nat; frames : nat }.

Record Script : Type := {
  PreInitResult : int32;
  InitResult : int32;
  AttachAfter : nat;
  QuitAfter : nat;
  QuitWhileLogging : bool
}.

Definition answer {A} (a : A) (e : Bench) (quit : bool) : Reply Bench A :=
  {| value := a; engine' := e; RequestedExit := quit |}.

Definition scripted (s : Script) : Externals Bench :=
  {| FParse_Param := fun CmdLine name => String.eqb CmdLine ("-" ++ name);
     GIsEditor := fun _ => false;
     IsDebuggerPresent := fun p =>
       answer (AttachAfter s <=? polls (engine p))
         {| polls := S (polls (engine p)); frames := frames (engine p) |}
         false;
     platform := fun c p =>
       answer tt (engine p)
         match c with
         | LogEngineInitializationTime => QuitWhileLogging s
         | _ => false
         end;
     Loop_PreInit := fun _ p => answer (PreInitResult s) (engine p) false;
     Loop_Init := fun p => answer (InitResult s) (engine p) false;
     Loop_Tick := fun p =>
       answer tt
         {| polls := polls (engine p); frames := S (frames (engine p)) |}
         (QuitAfter s <=? S (frames (engine p)));
     Loop_Exit := fun p => answer tt (engine p) false;
     EditorInit := fun p => answer (InitResult s) (engine p) false;
     EditorExit := fun p => answer tt (engine p) false |}.

Definition Development : FBuild :=
  {| UE_BUILD_SHIPPING := false; WITH_EDITOR := false;
     PLATFORM_WINDOWS := true |}.

Definition fresh (embedded : bool) : Process Bench :=
  {| GIsRequestingExit := false; bIsEmbedded := embedded;
     engine := {| polls := 0; frames := 0 |} |}.

(** PreInit and Init succeed, the third tick asks to quit. *)
Definition three_frames : Script :=
  {| PreInitResult := 0; InitResult := 0; AttachAfter := 2;
     QuitAfter := 3; QuitWhileLogging := false |}.

(** PreInit fails with error level 7. *)
Definition preinit_fails : Script :=
  {| PreInitResult := 7; InitResult := 0; AttachAfter := 0;
     QuitAfter := 1; QuitWhileLogging := false |}.

(** Init fails with error level 5, the second tick asks to quit. *)
Definition init_fails : Script :=
  {| PreInitResult := 0; InitResult := 5; AttachAfter := 0;
     QuitAfter := 2; QuitWhileLogging := false |}.

(** Exit is requested after Init has returned and before the tick loop. *)
Definition quit_before_loop : Script :=
  {| PreInitResult := 0; InitResult := 0; AttachAfter := 0;
     QuitAfter := 9; QuitWhileLogging := true |}.

(** A process in which an exit request is already pending. *)
Definition pending : Process Bench :=
  {| GIsRequestingExit := true; bIsEmbedded := false;
     engine := {| polls := 0; frames := 0 |} |}.

(** Concrete runs, each with fuel for ten polls and ten ticks. *)
Definition three_frames_run : Outcome Bench int32 :=
  GuardedMain (scripted three_frames) Development 10 "-waitforattach"
    (fresh false).

Definition preinit_fails_run : Outcome Bench int32 :=
  GuardedMain (scripted preinit_fails) Development 10 "" (fresh false).

Definition embedded_run : Outcome Bench int32 :=
  GuardedMain (scripted three_frames) Development 10 "" (fresh true).

Definition init_fails_run : Outcome Bench int32 :=
  GuardedMain (scripted init_fails) Development 10 "" (fresh false).

Definition embedded_init_fails_run : Outcome Bench int32 :=
  GuardedMain (scripted init_fails) Development 10 "" (fresh true).

Definition quit_before_loop_run : Outcome Bench int32 :=
  GuardedMain (scripted quit_before_loop) Development 10 "" (fresh false).

Definition pending_run : Outcome Bench int32 :=
  GuardedMain (scripted three_frames) Development 10 "" pending.

(** ** Further readers and notions *)

Definition is_editor_init (e : Event) : bool :=
  match e with EvEditorInit _ => true | _ => false end.

Definition is_editor_exit (e : Event) : bool :=
  match e with EvEditorExit => true | _ => false end.


Definition is_sleep (e : Event) : bool :=
  match e with EvCall FPlatformProcess_Sleep => true | _ => false end.

Definition is_debug_break (e : Event) : bool :=
  match e with EvCall UE_DEBUG_BREAK => true | _ => false end.

Definition activity_status (e : Event) : option string :=
  match e with
  | EvCall (TrackedActivity_Update Status _) => Some Status
  | _ => None
  end.

(** The statuses published through [FTrackedActivity], in order. *)
Definition activities : list Event -> list string := pick activity_status.

Section GateDefs.

Variable E : Type.
Variable X : Externals E.

(** The process in which the debug attach gate starts. *)
Definition after_entry (p : Process E) : Process E :=
  process_of
    (call X FTaskTagScope_ctor
       (process_of
          (call X (TrackedActivity_Update "Starting" (Some Yellow)) p))).

(** The condition of the [if] that guards the wait for a debugger. *)
Definition gate_armed (B : FBuild) (CmdLine : string) : bool :=
  negb (UE_BUILD_SHIPPING B)
  && (FParse_Param X CmdLine "waitforattach"
      || FParse_Param X CmdLine "WaitForDebugger").

(** What [FPlatformMisc::IsDebuggerPresent()] answers in a process. *)
Definition debugger_seen (p : Process E) : bool :=
  value (IsDebuggerPresent X p).

(** The process after [n] polls that found no debugger, each followed by a
    sleep. *)
Fixpoint polled (n : nat) (p : Process E) : Process E :=
  match n with
  | O => p
  | S n' =>
      polled n'
        (process_of
           (call X FPlatformProcess_Sleep
              (process_of
                 (invoke (IsDebuggerPresent X) EvIsDebuggerPresent p))))
  end.

End GateDefs.

(** An exit check that found the request pending, or any other event. *)
Definition reads_pending (e : Event) : bool :=
  match e with EvExitCheck _ false => false | _ => true end.

Section KeepDefs.

Variable E : Type.

(** Started with an exit request pending, [m] leaves it pending and every
    exit check it makes reads true. *)
Definition keeps_request {A} (m : M E A) : Prop :=
  forall p,
    GIsRequestingExit p = true ->
    GIsRequestingExit (process_of (m p)) = true
    /\ forallb reads_pending (trace_of (m p)) = true.


End KeepDefs.

(** An engine in editor mode in which no debugger ever shows up and nothing
    ever asks to quit. *)
Definition quiet : Externals Bench :=
  {| FParse_Param := fun CmdLine name => String.eqb CmdLine ("-" ++ name);
     GIsEditor := fun _ => true;
     IsDebuggerPresent := fun p => answer false (engine p) false;
     platform := fun _ p => answer tt (engine p) false;
     Loop_PreInit := fun _ p => answer 0%Z (engine p) false;
     Loop_Init := fun p => answer 0%Z (engine p) false;
     Loop_Tick := fun p =>
       answer tt
         {| polls := polls (engine p); frames := S (frames (engine p)) |}
         false;
     Loop_Exit := fun p => answer tt (engine p) false;
     EditorInit := fun p => answer 3%Z (engine p) false;
     EditorExit := fun p => answer tt (engine p) false |}.

Definition EditorBuild : FBuild :=
  {| UE_BUILD_SHIPPING := false; WITH_EDITOR := true;
     PLATFORM_WINDOWS := false |}.

Definition Shipping : FBuild :=
  {| UE_BUILD_SHIPPING := true; WITH_EDITOR := false;
     PLATFORM_WINDOWS := false |}.

(** The editor, embedded in a host. *)
Definition embedded_editor_run : Outcome Bench int32 :=
  GuardedMain quiet EditorBuild 10 "" (fresh true).

(** A shipping build started with the flag that would arm the gate. *)
Definition shipping_run : Outcome Bench int32 :=
  GuardedMain (scripted three_frames) Shipping 10 "-waitforattach"
    (fresh false).

(** ** How the loops run *)

Section Loops.

Variable E : Type.
Variable X : Externals E.

Lemma latched_refl (p : Process E) : latched p p.
Proof. split; auto. Qed.

Lemma latched_trans (p q r : Process E) :
  latched p q -> latched q r -> latched p r.
Proof. intros [H1 H2] [H3 H4]; split; [congruence | auto]. Qed.

Lemma latched_invoke A (op : Op E A) ev p :
  latched p (process_of (invoke op ev p)).
Proof.
  split; cbn; [reflexivity | intros ->; reflexivity].
Qed.

Ltac latch :=
  repeat first
    [ apply latched_refl
    | apply latched_invoke
    | eapply latched_trans; [| apply latched_invoke] ].

Lemma bind_eq A C (m : M E A) (k : A -> M E C) p :
  bind m k p
  = match m p with
    | Returned a p1 t1 => prefix t1 (k a p1)
    | Running p1 t1 => Running p1 t1
    end.
Proof. reflexivity. Qed.

Lemma prefix_nil A (o : Outcome E A) : prefix [] o = o.
Proof. destruct o; reflexivity. Qed.

Lemma prefix_prefix A t u (o : Outcome E A) :
  prefix t (prefix u o) = prefix (t ++ u) o.
Proof. destruct o; cbn; rewrite app_assoc; reflexivity. Qed.

Lemma bind_assoc A C D (m : M E A) (k : A -> M E C) (h : C -> M E D) p :
  bind (bind m k) h p = bind m (fun a => bind (k a) h) p.
Proof.
  rewrite (bind_eq (bind m k)), (bind_eq m), (bind_eq m).
  destruct (m p) as [a p1 t1 | p1 t1]; [| reflexivity].
  rewrite (bind_eq (k a)).
  destruct (k a p1) as [c p2 t2 | p2 t2]; cbn; [| reflexivity].
  rewrite prefix_prefix; reflexivity.
Qed.

Lemma bind_ret A C (a : A) (k : A -> M E C) p : bind (ret a) k p = k a p.
Proof. rewrite bind_eq; cbn; apply prefix_nil. Qed.

Lemma bind_emit C e (k : unit -> M E C) p :
  bind (emit e) k p = prefix [e] (k tt p).
Proof. reflexivity. Qed.

Lemma bind_invoke A C (op : Op E A) ev (k : A -> M E C) p :
  bind (invoke op ev) k p
  = prefix [ev (value (op p))]
      (k (value (op p)) (process_of (invoke op ev p))).
Proof. reflexivity. Qed.

Lemma bind_check C site (k : bool -> M E C) p :
  bind (IsEngineExitRequested site) k p
  = prefix [EvExitCheck site (GIsRequestingExit p)]
      (k (GIsRequestingExit p) p).
Proof. reflexivity. Qed.

Lemma WaitForDebugger_cases fuel p :
  (exists n p', n < fuel /\ latched p p'
     /\ WaitForDebugger X fuel p
        = Returned tt p' (waiting n ++ [EvIsDebuggerPresent true]))
  \/ (exists p', latched p p'
        /\ WaitForDebugger X fuel p = Running p' (waiting fuel)).
Proof.
  revert p; induction fuel as [|fuel IH]; intros p.
  - right; exists p; split; [apply latched_refl | reflexivity].
  - cbn [WaitForDebugger].
    rewrite bind_invoke; cbv beta.
    destruct (value (IsDebuggerPresent X p)) eqn:Hv.
    + left; eexists 0, _.
      split; [lia | split; [| reflexivity]]; latch.
    + unfold call; rewrite bind_invoke; cbv beta.
      match goal with
      | |- context [WaitForDebugger X fuel ?q] =>
          destruct (IH q) as [(n & p' & Hn & L' & ->) | (p' & L' & ->)]
      end.
      * left; exists (S n), p'.
        split; [lia | split; [| reflexivity]].
        eapply latched_trans; [| exact L']; latch.
      * right; exists p'.
        split; [| reflexivity].
        eapply latched_trans; [| exact L']; latch.
Qed.

Lemma TickLoop_cases fuel p :
  (exists n p', n < fuel /\ latched p p' /\ GIsRequestingExit p' = true
     /\ TickLoop X fuel p
        = Returned tt p' (iterations n ++ [EvExitCheck LoopBoundary true]))
  \/ (exists p', latched p p'
        /\ TickLoop X fuel p = Running p' (iterations fuel)).
Proof.
  revert p; induction fuel as [|fuel IH]; intros p.
  - right; exists p; split; [apply latched_refl | reflexivity].
  - cbn [TickLoop].
    rewrite bind_check; cbv beta.
    destruct (GIsRequestingExit p) eqn:Hq.
    + left; exists 0, p.
      split; [lia | split; [apply latched_refl | split; [exact Hq | reflexivity]]].
    + unfold EngineTick; rewrite bind_invoke; cbv beta.
      match goal with
      | |- context [TickLoop X fuel ?q] =>
          destruct (IH q)
            as [(n & p' & Hn & L' & Hx & ->) | (p' & L' & ->)]
      end.
      * left; exists (S n), p'.
        split; [lia | split; [| split; [exact Hx | reflexivity]]].
        eapply latched_trans; [| exact L']; latch.
      * right; exists p'.
        split; [| reflexivity].
        eapply latched_trans; [| exact L']; latch.
Qed.

Lemma DebugAttachGate_cases B fuel CmdLine p :
  (exists g p', GateDone fuel g /\ latched p p'
     /\ DebugAttachGate X B fuel CmdLine p = Returned tt p' g)
  \/ (exists p', DebugAttachGate X B fuel CmdLine p
                 = Running p' (waiting fuel)).
Proof.
  unfold DebugAttachGate, when.
  destruct (negb (UE_BUILD_SHIPPING B));
    [| left; exists [], p; split; [constructor | split; [apply latched_refl | reflexivity]]].
  destruct (FParse_Param X CmdLine "waitforattach"
            || FParse_Param X CmdLine "WaitForDebugger");
    [| left; exists [], p; split; [constructor | split; [apply latched_refl | reflexivity]]].
  rewrite bind_eq.
  destruct (WaitForDebugger_cases fuel p)
    as [(n & p' & Hn & L & ->) | (p' & L & ->)].
  - left.
    exists (waiting n ++ [EvIsDebuggerPresent true; EvCall UE_DEBUG_BREAK]).
    exists (process_of (call X UE_DEBUG_BREAK p')).
    split; [constructor; exact Hn |].
    split.
    + eapply latched_trans;
        [exact L | apply (latched_invoke (platform X UE_DEBUG_BREAK))].
    + cbn; destruct (value (platform X UE_DEBUG_BREAK p')).
      rewrite <- app_assoc; reflexivity.
  - right; exists p'; reflexivity.
Qed.

Lemma CleanupGuard_dtor_spec p :
  exists p', latched p p'
    /\ (bIsEmbedded p = false -> GIsRequestingExit p' = true)
    /\ CleanupGuard_dtor X p
       = Returned tt p'
           (EvGuardDtor
            :: (if bIsEmbedded p then []
                else [EvRequestEngineExit; EvLoopExit])).
Proof.
  unfold CleanupGuard_dtor, bind, emit, when.
  destruct (bIsEmbedded p) eqn:He; cbn.
  - exists p; split; [apply latched_refl | split; [discriminate | reflexivity]].
  - destruct (value (Loop_Exit X _)).
    eexists; split; [| split; [| reflexivity]]; cbn.
    + split; cbn; [reflexivity | reflexivity].
    + reflexivity.
Qed.

Lemma bind_read A C (f : Process E -> A) (k : A -> M E C) p :
  bind (fun q => ret (f q) q) k p = k (f p) p.
Proof. rewrite bind_eq; cbn; apply prefix_nil. Qed.

Ltac step :=
  cbv beta; repeat rewrite bind_assoc;
  first [ rewrite bind_invoke | rewrite bind_emit
        | rewrite bind_check | rewrite bind_ret | rewrite bind_read ];
  cbv beta.

Ltac chain :=
  repeat first
    [ apply latched_refl
    | apply latched_invoke
    | eapply latched_trans; [| apply latched_invoke]
    | eapply latched_trans; [| eassumption] ].

Ltac leave_scope p Hemb :=
  try rewrite bind_ret; cbv beta;
  repeat rewrite bind_assoc; rewrite (bind_eq (CleanupGuard_dtor X));
  match goal with
  | |- context [CleanupGuard_dtor X ?q] =>
      let p' := fresh "p'" in
      let L := fresh "L" in
      let Hx := fresh "Hx" in
      let Hq := fresh "Hq" in
      assert (Hq : latched p q) by chain;
      destruct (CleanupGuard_dtor_spec q) as (p' & L & Hx & ->);
      destruct Hq as [Hq _]; rewrite Hq, Hemb in *
  end;
  do 2 step; unfold ret; cbn [prefix app].

Ltac request_pending :=
  intros; try discriminate;
  match goal with
  | |- GIsRequestingExit (process_of (invoke _ _ ?q)) = true =>
      unfold process_of, invoke; cbn [GIsRequestingExit];
      match goal with
      | H : latched ?r q, R : GIsRequestingExit ?r = true |- _ =>
          rewrite (proj2 H R); reflexivity
      | H : _ -> GIsRequestingExit q = true |- _ =>
          rewrite H by reflexivity; reflexivity
      end
  end.

Ltac init_event Hed :=
  first
    [ left; reflexivity
    | right; split; [apply andb_prop in Hed; tauto | reflexivity] ].

Lemma LaunchRun_cast B fuel embedded (o o' : Outcome E int32) :
  LaunchRun B fuel embedded o -> o = o' -> LaunchRun B fuel embedded o'.
Proof. intros H <-; exact H. Qed.

Theorem GuardedMain_shape B fuel CmdLine p :
  LaunchRun B fuel (bIsEmbedded p) (GuardedMain X B fuel CmdLine p).
Proof.
  destruct (bIsEmbedded p) eqn:Hemb.
  all: unfold GuardedMain, scoped, call.
  all: do 2 step.
  all: repeat rewrite bind_assoc.
  all: rewrite (bind_eq (DebugAttachGate X B fuel CmdLine)).
  all: match goal with
  | |- context [DebugAttachGate X ?b ?f ?c ?q] =>
      destruct (DebugAttachGate_cases b f c q)
        as [(g & p3 & Hg & L3 & ->) | (p3 & ->)];
        [| apply run_in_gate]
  end.
  all: do 3 step.
  all: repeat rewrite bind_assoc.
  all: unfold when at 1.
  all: assert (Hwin : before_preinit B
           = [EvCall (BootTimingPoint "DefaultMain");
              EvCall PreMainInitDelegate_Broadcast; EvGuardCtor]
             ++ (if PLATFORM_WINDOWS B then [EvCall MiniDumpFilename_Strcpy]
                 else [])
             ++ [EvCall (TrackedActivity_Update "Initializing" None)])
        by reflexivity.
  all: destruct (PLATFORM_WINDOWS B); cbn [app] in Hwin.
  all: unfold EnginePreInit.
  all: do 3 step.
  all: match goal with
       | |- context [(value (Loop_PreInit X ?c ?q) =? 0)%Z] =>
           destruct (Z.eqb_spec (value (Loop_PreInit X c q)) 0)
             as [He | He]; [rewrite He |]; cbn [negb]
       end.
  all: step; cbv beta iota.
  all: try match goal with
       | |- context [if GIsRequestingExit ?q then _ else _] =>
           destruct (GIsRequestingExit q) eqn:Hreq
       end.
  all: cbv beta iota.
  all: try (leave_scope p Hemb).
  all: try (eapply LaunchRun_cast;
            [eapply run_exit_requested | rewrite ?Hwin; reflexivity];
            [exact Hg | request_pending]).
  all: try (eapply LaunchRun_cast;
            [eapply run_preinit_failed | rewrite ?Hwin; reflexivity];
            [exact Hg | exact He | request_pending]).
  all: do 3 step.
  all: unfold InEditor at 1.
  all: step.
  all: match goal with
       | |- context [if ?c then invoke (EditorInit X) _ else _] =>
           destruct c eqn:Hed1
       end.
  all: unfold EngineInit.
  all: step.
  all: match goal with
       | |- context [EvEditorInit ?v] => set (ErrorLevel := v) in *
       | |- context [EvEngineInit ?v] => set (ErrorLevel := v) in *
       end.
  all: do 8 step.
  all: match goal with
       | |- context [when (negb (bIsEmbedded ?q))] =>
           let Hq := fresh "Hq" in
           assert (Hq : latched p q) by chain;
           destruct Hq as [Hq _]; rewrite Hq, Hemb; clear Hq
       end.
  all: unfold when at 1; cbn [negb].
  all: repeat rewrite bind_assoc.
  all: try rewrite (bind_eq (TickLoop X fuel)).
  all: try match goal with
       | |- context [TickLoop X ?f ?q] =>
           destruct (TickLoop_cases f q)
             as [(n & p6 & Hn & L6 & Hx6 & ->) | (p6 & L6 & ->)]
       end.
  all: try (cbn [prefix app];
            eapply LaunchRun_cast;
            [eapply run_ticking | rewrite ?Hwin; reflexivity];
            [exact Hg | init_event Hed1 | reflexivity]).
  all: try rewrite bind_ret.
  all: step.
  all: unfold InEditor at 1.
  all: step.
  all: match goal with
       | |- context [when ?c] => destruct c eqn:Hed2
       end.
  all: unfold when at 1.
  all: step.
  all: leave_scope p Hemb.
  all: rewrite <- ?app_assoc.
  all: try (eapply LaunchRun_cast;
            [eapply run_embedded with (ed := true)
            | rewrite ?Hwin; reflexivity];
            [exact Hg | init_event Hed1
            | intros _; apply andb_prop in Hed2; tauto | reflexivity]).
  all: try (eapply LaunchRun_cast;
            [eapply run_embedded with (ed := false)
            | rewrite ?Hwin; reflexivity];
            [exact Hg | init_event Hed1 | discriminate | reflexivity]).
  all: try (eapply LaunchRun_cast;
            [eapply run_completed with (ed := true)
            | rewrite ?Hwin; reflexivity];
            [exact Hg | init_event Hed1
            | intros _; apply andb_prop in Hed2; tauto | reflexivity
            | exact Hn | request_pending]).
  all: try (eapply LaunchRun_cast;
            [eapply run_completed with (ed := false)
            | rewrite ?Hwin; reflexivity];
            [exact Hg | init_event Hed1 | discriminate | reflexivity
            | exact Hn | request_pending]).
Qed.

End Loops.

(** ** Counting in traces *)

Lemma count_app f a b : count f (a ++ b) = count f a + count f b.
Proof. unfold count; rewrite filter_app, length_app; reflexivity. Qed.

Lemma count_nil f : count f [] = 0.
Proof. reflexivity. Qed.

Lemma count_cons f e t :
  count f (e :: t) = (if f e then 1 else 0) + count f t.
Proof. unfold count; cbn; destruct (f e); reflexivity. Qed.

Lemma count_waiting f n :
  count f (waiting n)
  = n * count f [EvIsDebuggerPresent false; EvCall FPlatformProcess_Sleep].
Proof.
  induction n as [|n IH]; [reflexivity |].
  change (waiting (S n))
    with ([EvIsDebuggerPresent false; EvCall FPlatformProcess_Sleep]
          ++ waiting n).
  rewrite count_app, IH; lia.
Qed.

Lemma count_iterations f n :
  count f (iterations n)
  = n * count f [EvExitCheck LoopBoundary false; EvTick].
Proof.
  induction n as [|n IH]; [reflexivity |].
  change (iterations (S n))
    with ([EvExitCheck LoopBoundary false; EvTick] ++ iterations n).
  rewrite count_app, IH; lia.
Qed.

Lemma pick_app A (f : Event -> option A) a b :
  pick f (a ++ b) = pick f a ++ pick f b.
Proof.
  induction a as [|e a IH]; [reflexivity |].
  cbn; destruct (f e); cbn; rewrite IH; reflexivity.
Qed.

Lemma In_pick A (f : Event -> option A) e a t :
  In e t -> f e = Some a -> In a (pick f t).
Proof.
  intros Hin Hf; induction t as [|x t IH]; [contradiction |].
  destruct Hin as [-> | Hin]; cbn.
  - rewrite Hf; left; reflexivity.
  - destruct (f x); [right |]; auto.
Qed.

Lemma pick_In A (f : Event -> option A) a t :
  In a (pick f t) -> exists e, In e t /\ f e = Some a.
Proof.
  induction t as [|x t IH]; [contradiction |].
  cbn; destruct (f x) as [a' |] eqn:Hf.
  - intros [<- | H].
    + exists x; split; [left; reflexivity | exact Hf].
    + destruct (IH H) as (e & He & Hfe); exists e; split; [right |]; auto.
  - intros H; destruct (IH H) as (e & He & Hfe).
    exists e; split; [right |]; auto.
Qed.

Lemma pick_waiting A (f : Event -> option A) n :
  f (EvIsDebuggerPresent false) = None ->
  f (EvCall FPlatformProcess_Sleep) = None ->
  pick f (waiting n) = [].
Proof.
  intros H1 H2; induction n as [|n IH]; [reflexivity |].
  cbn; rewrite H1, H2; exact IH.
Qed.

Lemma pick_iterations A (f : Event -> option A) n :
  f (EvExitCheck LoopBoundary false) = None ->
  f EvTick = None ->
  pick f (iterations n) = [].
Proof.
  intros H1 H2; induction n as [|n IH]; [reflexivity |].
  cbn; rewrite H1, H2; exact IH.
Qed.

Lemma loop_checks_iterations n :
  pick loop_check (iterations n) = repeat false n.
Proof.
  induction n as [|n IH]; [reflexivity |].
  cbn; rewrite IH; reflexivity.
Qed.

Lemma In_waiting x n :
  In x (waiting n) ->
  x = EvIsDebuggerPresent false \/ x = EvCall FPlatformProcess_Sleep.
Proof.
  induction n as [|n IH]; cbn; [tauto |].
  intros [<- | [<- | H]]; auto.
Qed.

Lemma In_GateDone fuel g x :
  GateDone fuel g -> In x g -> is_gate_event x = true.
Proof.
  intros [|n Hn]; cbn; [tauto |].
  rewrite in_app_iff; cbn.
  intros [H | [<- | [<- | []]]]; try reflexivity.
  apply In_waiting in H; destruct H as [-> | ->]; reflexivity.
Qed.

Lemma tick_loop_entered_iff t : tick_loop_entered t <-> loop_checks t <> [].
Proof.
  split.
  - intros [b Hb] Hnil.
    apply In_pick with (f := loop_check) (a := b) in Hb; [| reflexivity].
    unfold loop_checks in Hnil; rewrite Hnil in Hb; exact Hb.
  - intros Hne.
    destruct (loop_checks t) as [|b l] eqn:Hl; [congruence |].
    destruct (@pick_In _ loop_check b t) as (e & He & Hf).
    + unfold loop_checks in Hl; rewrite Hl; left; reflexivity.
    + exists b.
      destruct e as [| | | | |[] c| | | | | |]; try discriminate Hf.
      injection Hf as ->; exact He.
Qed.

(** ** Progress shown along a trace *)

Lemma progress_shown_neutral steps task a rest :
  forallb progress_neutral a = true ->
  progress_shown steps task (a ++ rest) = progress_shown steps task rest.
Proof.
  induction a as [|e a IH]; [reflexivity |].
  cbn [forallb app]; intros H; apply andb_prop in H; destruct H as [He Ha].
  rewrite <- (IH Ha).
  destruct e as [[]| | | | | | | | | | |]; try discriminate He;
    destruct task; reflexivity.
Qed.

Lemma neutral_waiting n : forallb progress_neutral (waiting n) = true.
Proof. induction n as [|n IH]; [reflexivity | exact IH]. Qed.

Lemma neutral_iterations n : forallb progress_neutral (iterations n) = true.
Proof. induction n as [|n IH]; [reflexivity | exact IH]. Qed.

Lemma neutral_GateDone fuel g :
  GateDone fuel g -> forallb progress_neutral g = true.
Proof.
  intros [|n Hn]; [reflexivity |].
  rewrite forallb_app, neutral_waiting; reflexivity.
Qed.

Lemma neutral_before_preinit B :
  forallb progress_neutral (before_preinit B) = true.
Proof. unfold before_preinit; destruct (PLATFORM_WINDOWS B); reflexivity. Qed.

Lemma neutral_epilogue ed : forallb progress_neutral (epilogue ed) = true.
Proof. destruct ed; reflexivity. Qed.

Lemma neutral_unwind embedded :
  forallb progress_neutral (unwind embedded) = true.
Proof. destruct embedded; reflexivity. Qed.

Lemma progress_shown_all_neutral steps task a :
  forallb progress_neutral a = true -> progress_shown steps task a = [].
Proof.
  intros H; rewrite <- (app_nil_r a).
  rewrite progress_shown_neutral by exact H; reflexivity.
Qed.

(** Inside the slice of 20 that follows the 80 consumed for PreInit, the
    percentage only grows and stays within the budget. *)
Lemma report_steps_in_slice steps : forall done,
  (0 <= done <= 20)%Z ->
  let shown :=
    fst (report_steps steps
           {| TotalAmountOfWork := 100; CompletedWork := 80;
              CurrentFrameScope := 20; FrameProgress := done |}) in
  StronglySorted Z.le shown
  /\ Forall (fun v => (80 + done <= v <= 100)%Z) shown.
Proof.
  induction steps as [|s steps IH]; intros done Hdone shown; subst shown.
  - split; constructor.
  - cbn [report_steps].
    change (SlowTask_advance s
              {| TotalAmountOfWork := 100; CompletedWork := 80;
                 CurrentFrameScope := 20; FrameProgress := done |})
      with {| TotalAmountOfWork := 100; CompletedWork := 80;
              CurrentFrameScope := 20;
              FrameProgress := Z.min 20 (done + Z.max 0 s) |}.
    assert (Hd : (done <= Z.min 20 (done + Z.max 0 s) <= 20)%Z) by lia.
    revert Hd; generalize (Z.min 20 (done + Z.max 0 s)); intros done' Hd.
    destruct (IH done') as [Hs Hb]; [lia |].
    destruct (report_steps steps _) as [shown k'] eqn:Hr.
    cbn [fst] in *.
    assert (Hpc : percentage
                    {| TotalAmountOfWork := 100; CompletedWork := 80;
                       CurrentFrameScope := 20; FrameProgress := done' |}
                  = (80 + done')%Z)
      by (unfold percentage; cbn; apply Z.div_mul; discriminate).
    rewrite Hpc.
    split.
    + constructor; [exact Hs |].
      eapply Forall_impl; [| exact Hb]; cbv beta; intros v Hv; lia.
    + constructor; [lia |].
      eapply Forall_impl; [| exact Hb]; cbv beta; intros v Hv; lia.
Qed.

(** ** Properties of the launcher *)

Ltac run_cases X B fuel CmdLine p :=
  let H := fresh "Hrun" in
  let o := fresh "o" in
  let Ho := fresh "Ho" in
  pose proof (GuardedMain_shape X B fuel CmdLine p) as H;
  remember (GuardedMain X B fuel CmdLine p) as o eqn:Ho;
  destruct H
    as [ q
       | g e' q Hg He' Hq
       | g q Hg Hq
       | g i e' ed q Hg Hi Hed Hemb
       | g i e' q Hg Hi Hemb
       | g i e' n ed q Hg Hi Hed Hemb Hn Hq ];
  clear Ho.

Ltac spell_out B :=
  unfold before_preinit, epilogue, unwind, entry, init_section in *;
  destruct (PLATFORM_WINDOWS B);
  repeat match goal with
    | H : GateDone _ _ |- _ => destruct H
    | H : InitEvent _ _ _ |- _ => destruct H as [-> | [? ->]]
    | ed : bool |- _ => destruct ed
    end.

Ltac tally :=
  cbn [trace_of result_of process_of] in *;
  repeat rewrite count_app;
  repeat rewrite count_waiting;
  repeat rewrite count_iterations;
  first
    [ solve [cbn; lia]
    | repeat first
        [ rewrite count_app | rewrite count_waiting
        | rewrite count_iterations | rewrite count_cons
        | rewrite count_nil ];
      cbn; try lia ].

Ltac read_checks :=
  cbn [trace_of];
  unfold loop_checks;
  repeat rewrite pick_app;
  repeat rewrite pick_waiting by reflexivity;
  repeat rewrite loop_checks_iterations;
  cbn [pick loop_check app]; rewrite ?app_nil_r.

Ltac read H :=
  cbn [trace_of] in H;
  unfold loop_checks, preinit_levels, init_levels, acquisitions, releases
    in H;
  repeat rewrite pick_app in H;
  repeat rewrite pick_waiting in H by reflexivity;
  repeat rewrite pick_iterations in H by reflexivity;
  repeat rewrite loop_checks_iterations in H;
  cbn in H.

Section Claims.

Variable E : Type.
Variable X : Externals E.

(** C1: whenever PreInit returns a non-zero error level, GuardedMain
    returns that error level, neither initialiser is invoked, no tick is
    run, and the exit phase runs exactly once, or not at all when the
    engine is embedded. *)
Theorem preinit_failure_ends_the_run B fuel CmdLine p e :
  let o := GuardedMain X B fuel CmdLine p in
  In (EvPreInit e) (trace_of o) ->
  e <> 0%Z ->
  result_of o = Some e
  /\ count is_init (trace_of o) = 0
  /\ count is_tick (trace_of o) = 0
  /\ count is_exit_phase (trace_of o) = (if bIsEmbedded p then 0 else 1).
Proof.
  intros o Hin He; subst o.
  apply In_pick with (f := preinit_level) (a := e) in Hin;
    [| reflexivity].
  run_cases X B fuel CmdLine p.
  all: destruct (bIsEmbedded p); try discriminate.
  all: spell_out B.
  all: read Hin.
  all: try (destruct Hin as [Hin | []]; subst); try contradiction.
  all: repeat split; tally.
Qed.

(** C2: in every run, however far it gets and however it ends, the exit
    phase is executed at most once. *)
Theorem exit_phase_at_most_once B fuel CmdLine p :
  count is_exit_phase (trace_of (GuardedMain X B fuel CmdLine p)) <= 1.
Proof.
  run_cases X B fuel CmdLine p.
  all: destruct (bIsEmbedded p); try discriminate.
  all: spell_out B.
  all: tally.
Qed.

(** C3: when the engine is embedded, no run ticks, evaluates the loop
    condition, requests exit or executes the exit phase, and the
    destructor of the cleanup guard does nothing. *)
Theorem embedded_run_neither_ticks_nor_exits B fuel CmdLine p :
  bIsEmbedded p = true ->
  let t := trace_of (GuardedMain X B fuel CmdLine p) in
  count is_tick t = 0
  /\ loop_checks t = []
  /\ count is_exit_request t = 0
  /\ count is_exit_phase t = 0
  /\ CleanupGuard_dtor X p = Returned tt p [EvGuardDtor].
Proof.
  intros Hp t; subst t.
  assert (Hdtor : CleanupGuard_dtor X p = Returned tt p [EvGuardDtor])
    by (unfold CleanupGuard_dtor, bind, emit, when;
        rewrite Hp; reflexivity).
  run_cases X B fuel CmdLine p.
  all: try rewrite Hp in *; try discriminate.
  all: spell_out B.
  all: repeat split; try exact Hdtor; tally.
  all: unfold loop_checks; repeat rewrite pick_app;
    repeat rewrite pick_waiting by reflexivity; reflexivity.
Qed.

Lemma ticked_latched n p : latched p (ticked X n p).
Proof.
  revert p; induction n as [|n IH]; intros p; [apply latched_refl |].
  cbn [ticked]; eapply latched_trans; [| apply IH].
  apply (latched_invoke (Loop_Tick X)).
Qed.

Lemma ticked_S n p :
  ticked X (S n) p = process_of (EngineTick X (ticked X n p)).
Proof.
  revert p; induction n as [|n IH]; intros p; [reflexivity |].
  change (ticked X (S (S n)) p)
    with (ticked X (S n) (process_of (EngineTick X p))).
  rewrite IH; reflexivity.
Qed.

Lemma ticked_not_pending n k p :
  GIsRequestingExit (ticked X n p) = false -> k <= n ->
  GIsRequestingExit (ticked X k p) = false.
Proof.
  intros Hn Hk.
  destruct (GIsRequestingExit (ticked X k p)) eqn:Hf; [| reflexivity].
  replace n with ((n - k) + k) in Hn by lia.
  revert Hn; generalize (n - k) as j; intros j.
  induction j as [|j IH]; cbn [Nat.add]; [congruence |].
  rewrite ticked_S; intros Hn.
  destruct (GIsRequestingExit (ticked X (j + k) p)) eqn:Hj;
    [| auto].
  cbn in Hn; rewrite Hj in Hn; discriminate.
Qed.

Lemma TickLoop_until m : forall p fuel,
  (forall k, k < m -> GIsRequestingExit (ticked X k p) = false) ->
  GIsRequestingExit (ticked X m p) = true ->
  m < fuel ->
  TickLoop X fuel p
  = Returned tt (ticked X m p)
      (iterations m ++ [EvExitCheck LoopBoundary true]).
Proof.
  induction m as [|m IH]; intros p fuel Hlt Hm Hfuel.
  - destruct fuel as [|fuel]; [lia |].
    cbn [TickLoop ticked] in *; rewrite bind_check, Hm; reflexivity.
  - destruct fuel as [|fuel]; [lia |].
    cbn [TickLoop]; rewrite bind_check.
    pose proof (Hlt 0 ltac:(lia)) as H0; cbn [ticked] in H0.
    rewrite H0; cbv beta iota.
    unfold EngineTick at 1; rewrite bind_invoke; cbv beta.
    rewrite (IH (process_of
                   (invoke (Loop_Tick X) (fun _ : unit => EvTick) p))
                fuel);
      [reflexivity | | exact Hm | lia].
    intros k Hk; apply (Hlt (S k)); lia.
Qed.

Lemma count_tick_shape B fuel embedded (o : Outcome E int32) :
  LaunchRun B fuel embedded o ->
  let t := trace_of o in
  (loop_checks t = repeat false (count is_tick t)
   /\ (In true (loop_checks t) -> False))
  \/ (loop_checks t = repeat false (count is_tick t) ++ [true]
      /\ result_of o <> None).
Proof.
  intros H; destruct H.
  all: spell_out B; try discriminate.
  all: cbn [trace_of result_of].
  all: match goal with
       | |- context [iterations ?k] =>
           replace (count is_tick _) with k by tally
       | |- _ => replace (count is_tick _) with 0 by tally
       end.
  all: unfold loop_checks; repeat rewrite pick_app;
    repeat rewrite pick_waiting by reflexivity;
    repeat rewrite loop_checks_iterations; cbn.
  all: rewrite ?app_nil_r.
  all: first
         [ left; split; [reflexivity |];
           first [ tauto
                 | intros Hin; apply repeat_spec in Hin; discriminate Hin ]
         | right; split; [reflexivity | discriminate] ].
Qed.

(** C5: the tick loop looks at the exit request only between ticks.  A
    request that is pending when the loop is reached leaves it without a
    tick; a request made during a tick lets that tick finish and prevents
    the next one; in every run each tick follows a check that read false
    and nothing is ticked after a check that read true. *)
Theorem exit_request_is_read_between_ticks :
  (forall fuel p,
     GIsRequestingExit p = true -> 0 < fuel ->
     TickLoop X fuel p = Returned tt p [EvExitCheck LoopBoundary true])
  /\ (forall fuel p m,
        GIsRequestingExit (ticked X m p) = false ->
        GIsRequestingExit (ticked X (S m) p) = true ->
        S m < fuel ->
        TickLoop X fuel p
        = Returned tt (ticked X (S m) p)
            (iterations (S m) ++ [EvExitCheck LoopBoundary true]))
  /\ (forall B fuel CmdLine p,
        let t := trace_of (GuardedMain X B fuel CmdLine p) in
        (hd_error (loop_checks t) = Some true -> count is_tick t = 0)
        /\ (loop_checks t = repeat false (count is_tick t)
            \/ loop_checks t = repeat false (count is_tick t) ++ [true])).
Proof.
  split; [| split].
  - intros fuel p Hp Hfuel.
    apply TickLoop_until with (m := 0);
      [intros k Hk; lia | exact Hp | exact Hfuel].
  - intros fuel p m Hm HSm Hfuel.
    apply TickLoop_until; [| exact HSm | exact Hfuel].
    intros k Hk; apply ticked_not_pending with (n := m); [exact Hm | lia].
  - intros B fuel CmdLine p t; subst t.
    destruct (count_tick_shape (GuardedMain_shape X B fuel CmdLine p))
      as [[Hc _] | [Hc _]]; cbv zeta in Hc.
    + split; [| left; exact Hc].
      rewrite Hc.
      destruct (count is_tick _); [reflexivity | discriminate].
    + split; [| right; exact Hc].
      rewrite Hc.
      destruct (count is_tick _); [reflexivity | discriminate].
Qed.

(** C6: a run in which PreInit and Init return 0, the engine is not
    embedded and the loop condition reads false three times and then
    true, ticks exactly three times and returns 0. *)
Theorem three_checks_then_exit B fuel CmdLine p :
  let o := GuardedMain X B fuel CmdLine p in
  In 0%Z (preinit_levels (trace_of o)) ->
  In 0%Z (init_levels (trace_of o)) ->
  bIsEmbedded p = false ->
  loop_checks (trace_of o) = [false; false; false; true] ->
  count is_tick (trace_of o) = 3 /\ result_of o = Some 0%Z.
Proof.
  intros o Hpre Hinit Hp Hchecks; subst o.
  run_cases X B fuel CmdLine p.
  all: rewrite ?Hp in *; try discriminate.
  all: spell_out B.
  all: read Hchecks; try discriminate.
  all: try (destruct fuel as [|[|[|[|fuel]]]]; discriminate).
  all: destruct n as [|[|[|[|n]]]]; try discriminate.
  all: read Hinit; destruct Hinit as [<- | []].
  all: split; [tally | reflexivity].
Qed.

(** C4, as the launcher has it: a failing Init does not keep the run from
    the tick loop.  The run returns Init's error level whenever it
    returns; when the engine is not embedded the loop condition is
    evaluated, and the run returns once it reads true; when the engine is
    embedded the loop is skipped and the run returns at once. *)
Theorem init_failure_does_not_gate_the_tick_loop B fuel CmdLine p e :
  let o := GuardedMain X B fuel CmdLine p in
  In e (init_levels (trace_of o)) ->
  e <> 0%Z ->
  (forall r, result_of o = Some r -> r = e)
  /\ (bIsEmbedded p = false ->
      (0 < fuel -> tick_loop_entered (trace_of o))
      /\ (In true (loop_checks (trace_of o)) -> result_of o = Some e))
  /\ (bIsEmbedded p = true ->
      result_of o = Some e /\ ~ tick_loop_entered (trace_of o)).
Proof.
  intros o Hinit He; subst o.
  run_cases X B fuel CmdLine p.
  all: destruct (bIsEmbedded p); try discriminate.
  all: spell_out B.
  all: read Hinit; try contradiction.
  all: destruct Hinit as [<- | []].
  all: rewrite tick_loop_entered_iff.
  all: read_checks; cbn [result_of].
  all: split; [intros r Hr; congruence |].
  all: split; intros Hp; try discriminate Hp.
  all: try (split; [reflexivity |];
            let Hne := fresh in intros Hne; apply Hne; reflexivity).
  all: split; [intros Hfuel | intros Htrue; try reflexivity].
  all: try (apply repeat_spec in Htrue; discriminate Htrue).
  all: try (destruct fuel; [lia | discriminate]).
  all: destruct n; discriminate.
Qed.

(** C9: a run is either still polling for the debugger, or its trace
    splits at the pre-main broadcast: everything the debug attach gate did
    lies before it, PreInit is invoked exactly once and after it, and
    there is no second broadcast. *)
Theorem premain_broadcast_between_gate_and_preinit B fuel CmdLine p :
  let o := GuardedMain X B fuel CmdLine p in
  (result_of o = None
   /\ trace_of o = entry ++ waiting fuel
   /\ count is_broadcast (trace_of o) = 0
   /\ count is_preinit (trace_of o) = 0)
  \/ (exists g rest,
        GateDone fuel g
        /\ trace_of o
           = (entry ++ g ++ [EvCall (BootTimingPoint "DefaultMain")])
             ++ EvCall PreMainInitDelegate_Broadcast :: rest
        /\ count is_gate_event rest = 0
        /\ count is_preinit (entry ++ g) = 0
        /\ count is_preinit rest = 1
        /\ count is_broadcast (trace_of o) = 1).
Proof.
  intros o; subst o.
  run_cases X B fuel CmdLine p; cbn [trace_of result_of].
  - left; repeat split; tally.
  - right; exists g; eexists; split; [exact Hg |].
    split; [unfold before_preinit, entry;
            repeat rewrite <- app_assoc; cbn [app]; reflexivity |].
    destruct (bIsEmbedded p); spell_out B; repeat split; tally.
  - right; exists g; eexists; split; [exact Hg |].
    split; [unfold before_preinit, entry;
            repeat rewrite <- app_assoc; cbn [app]; reflexivity |].
    destruct (bIsEmbedded p); spell_out B; repeat split; tally.
  - right; exists g; eexists; split; [exact Hg |].
    split; [unfold before_preinit, entry;
            repeat rewrite <- app_assoc; cbn [app]; reflexivity |].
    spell_out B; repeat split; tally.
  - right; exists g; eexists; split; [exact Hg |].
    split; [unfold before_preinit, entry;
            repeat rewrite <- app_assoc; cbn [app]; reflexivity |].
    spell_out B; repeat split; tally.
  - right; exists g; eexists; split; [exact Hg |].
    split; [unfold before_preinit, entry;
            repeat rewrite <- app_assoc; cbn [app]; reflexivity |].
    spell_out B; repeat split; tally.
Qed.

Lemma EngineExit_eq p :
  EngineExit X p
  = Returned tt
      (process_of
         (invoke (Loop_Exit X) (fun _ => EvLoopExit)
            {| GIsRequestingExit := true;
               bIsEmbedded := bIsEmbedded p;
               engine := engine p |}))
      [EvRequestEngineExit; EvLoopExit].
Proof.
  unfold EngineExit, RequestEngineExit, bind, invoke; cbn.
  destruct (value (Loop_Exit X _)); reflexivity.
Qed.

(** C10: [EngineExit] raises the exit request before it calls
    [GEngineLoop.Exit()], which therefore runs with the request pending,
    and the request is pending when [EngineExit] returns, whether or not
    one was pending before.  In a run of the launcher that executes the
    exit phase, the request is raised once, immediately before the call,
    and is pending in the process the run leaves behind. *)
Theorem EngineExit_requests_exit_first p :
  (EngineExit X p
   = Returned tt
       (process_of
          (invoke (Loop_Exit X) (fun _ => EvLoopExit)
             {| GIsRequestingExit := true;
                bIsEmbedded := bIsEmbedded p;
                engine := engine p |}))
       [EvRequestEngineExit; EvLoopExit])
  /\ GIsRequestingExit (process_of (EngineExit X p)) = true
  /\ (forall B fuel CmdLine,
        let o := GuardedMain X B fuel CmdLine p in
        In EvLoopExit (trace_of o) ->
        GIsRequestingExit (process_of o) = true
        /\ count is_exit_request (trace_of o) = 1
        /\ exists before after,
             trace_of o
             = before ++ [EvRequestEngineExit; EvLoopExit] ++ after).
Proof.
  split; [apply EngineExit_eq |].
  split; [rewrite EngineExit_eq; reflexivity |].
  intros B fuel CmdLine o Hin; subst o.
  apply In_pick with (f := fun e => if is_exit_phase e then Some tt else None)
                     (a := tt) in Hin; [| reflexivity].
  run_cases X B fuel CmdLine p; cbn [trace_of process_of] in *.
  1,4,5: exfalso; spell_out B; read Hin; exact Hin.
  all: destruct (bIsEmbedded p) eqn:Hp;
    [exfalso; first [discriminate | spell_out B; read Hin; exact Hin] |].
  all: split; [auto |].
  all: split; [spell_out B; tally |].
  all: unfold unwind.
  - exists (entry ++ g ++ before_preinit B ++ [EvPreInit e'; EvGuardDtor]).
    eexists; repeat rewrite <- app_assoc; cbn [app]; reflexivity.
  - exists (entry ++ g ++ before_preinit B
            ++ [EvPreInit 0%Z; EvExitCheck AfterPreInit true; EvGuardDtor]).
    eexists; repeat rewrite <- app_assoc; cbn [app]; reflexivity.
  - exists (entry ++ g ++ before_preinit B ++ [EvPreInit 0%Z]
            ++ init_section i ++ iterations n
            ++ [EvExitCheck LoopBoundary true] ++ epilogue ed
            ++ [EvGuardDtor]).
    eexists; repeat rewrite <- app_assoc; cbn [app]; reflexivity.
Qed.

(** C8, as the launcher has it: the task tag scope is acquired before
    the cleanup guard and released after it.  In a run that returns, the
    guard is the second resource acquired and the last but one released,
    around a slow task at most; the trace ends with the release of the
    guard, the exit phase it runs unless the engine is embedded, and the
    release of the task tag scope, all before GuardedMain returns.
    Releasing the guard while an exit request is pending executes the
    exit phase once and leaves the request pending. *)
Theorem cleanup_guard_released_before_task_tag_scope B fuel CmdLine p :
  let o := GuardedMain X B fuel CmdLine p in
  (forall r, result_of o = Some r ->
     exists inner front,
       acquisitions (trace_of o) = [TaskTagScope; CleanupGuard] ++ inner
       /\ releases (trace_of o) = inner ++ [CleanupGuard; TaskTagScope]
       /\ trace_of o = front ++ unwind (bIsEmbedded p)
       /\ count is_exit_phase front = 0)
  /\ (GIsRequestingExit p = true -> bIsEmbedded p = false ->
      exists p',
        CleanupGuard_dtor X p
        = Returned tt p' [EvGuardDtor; EvRequestEngineExit; EvLoopExit]
        /\ GIsRequestingExit p' = true).
Proof.
  intros o; subst o; split.
  - intros r Hr.
    run_cases X B fuel CmdLine p; cbn [trace_of result_of] in *;
      try discriminate Hr.
    + exists [].
      exists (entry ++ g ++ before_preinit B ++ [EvPreInit e']).
      split; [| split; [| split]].
      * spell_out B; unfold acquisitions; repeat rewrite pick_app;
          repeat rewrite pick_waiting by reflexivity;
          destruct (bIsEmbedded p); reflexivity.
      * spell_out B; unfold releases; repeat rewrite pick_app;
          repeat rewrite pick_waiting by reflexivity;
          destruct (bIsEmbedded p); reflexivity.
      * repeat rewrite <- app_assoc; reflexivity.
      * spell_out B; tally.
    + exists [].
      exists (entry ++ g ++ before_preinit B
              ++ [EvPreInit 0%Z; EvExitCheck AfterPreInit true]).
      split; [| split; [| split]].
      * spell_out B; unfold acquisitions; repeat rewrite pick_app;
          repeat rewrite pick_waiting by reflexivity;
          destruct (bIsEmbedded p); reflexivity.
      * spell_out B; unfold releases; repeat rewrite pick_app;
          repeat rewrite pick_waiting by reflexivity;
          destruct (bIsEmbedded p); reflexivity.
      * repeat rewrite <- app_assoc; reflexivity.
      * spell_out B; tally.
    + exists [SlowTask].
      exists (entry ++ g ++ before_preinit B ++ [EvPreInit 0%Z]
              ++ init_section i ++ epilogue ed).
      rewrite Hemb.
      split; [| split; [| split]].
      * spell_out B; unfold acquisitions; repeat rewrite pick_app;
          repeat rewrite pick_waiting by reflexivity; reflexivity.
      * spell_out B; unfold releases; repeat rewrite pick_app;
          repeat rewrite pick_waiting by reflexivity; reflexivity.
      * repeat rewrite <- app_assoc; reflexivity.
      * spell_out B; tally.
    + exists [SlowTask].
      exists (entry ++ g ++ before_preinit B ++ [EvPreInit 0%Z]
              ++ init_section i ++ iterations n
              ++ [EvExitCheck LoopBoundary true] ++ epilogue ed).
      rewrite Hemb.
      split; [| split; [| split]].
      * spell_out B; unfold acquisitions; repeat rewrite pick_app;
          repeat rewrite pick_waiting by reflexivity;
          repeat rewrite pick_iterations by reflexivity; reflexivity.
      * spell_out B; unfold releases; repeat rewrite pick_app;
          repeat rewrite pick_waiting by reflexivity;
          repeat rewrite pick_iterations by reflexivity; reflexivity.
      * repeat rewrite <- app_assoc; reflexivity.
      * spell_out B; tally.
  - intros Hreq Hp.
    destruct (CleanupGuard_dtor_spec X p) as (p' & _ & Hx & Heq).
    exists p'; rewrite Heq, Hp; auto.
Qed.

(** C7: whatever sub-steps the initialiser reports, the percentages
    shown during a run never decrease and stay between 0 and 100: the 80
    units of PreInit are consumed at once after PreInit has returned, and
    the initialiser advances within the remaining 20. *)
Theorem boot_progress_monotone_and_bounded B fuel CmdLine p steps :
  let shown :=
    progress_shown steps None (trace_of (GuardedMain X B fuel CmdLine p)) in
  StronglySorted Z.le shown
  /\ Forall (fun v => (0 <= v <= 100)%Z) shown.
Proof.
  intros shown.
  assert (Hshown :
    shown = []
    \/ shown
       = [0; 0; 80]%Z
         ++ fst (report_steps steps
                   {| TotalAmountOfWork := 100; CompletedWork := 80;
                      CurrentFrameScope := 20; FrameProgress := 0 |})).
  { subst shown.
    run_cases X B fuel CmdLine p; cbn [trace_of].
    1-3: left; apply progress_shown_all_neutral;
      repeat rewrite forallb_app;
      rewrite ?neutral_waiting, ?neutral_before_preinit, ?neutral_unwind,
        ?(neutral_GateDone Hg); reflexivity.
    all: right.
    all: change entry with ([] ++ entry); rewrite <- app_assoc.
    all: do 4 (rewrite progress_shown_neutral
                 by first [ reflexivity | exact (neutral_GateDone Hg)
                          | apply neutral_before_preinit ]).
    all: destruct Hi as [-> | [_ ->]]; unfold init_section.
    all: cbn [progress_shown app]; unfold SlowTask_enter, SlowTask_begin;
      cbn [TotalAmountOfWork CompletedWork CurrentFrameScope FrameProgress
           Z.add].
    all: destruct (report_steps steps _) as [inner k'].
    all: cbn [fst]; do 2 f_equal.
    all: f_equal; try reflexivity.
    all: rewrite progress_shown_all_neutral; [apply app_nil_r |].
    all: repeat (rewrite forallb_app || cbn [forallb progress_neutral andb]).
    all: rewrite ?neutral_iterations, ?neutral_epilogue, ?neutral_unwind;
      reflexivity. }
  destruct Hshown as [-> | ->]; [split; constructor |].
  destruct (@report_steps_in_slice steps 0%Z ltac:(lia)) as [Hs Hb].
  cbv zeta in *.
  split.
  - repeat constructor; try lia; try exact Hs.
    all: eapply Forall_impl; [| exact Hb]; cbv beta; intros v Hv; lia.
  - repeat constructor; try lia.
    eapply Forall_impl; [| exact Hb]; cbv beta; intros v Hv; lia.
Qed.

End Claims.

(** ** Further properties of the launcher *)

Section Extras.

Variable E : Type.
Variable X : Externals E.

(** X1: when the check after PreInit finds an exit request, the run returns
    0, which is what PreInit returned; no initialiser and no tick is
    invoked, and the exit phase runs once, or not at all when the engine is
    embedded. *)
Theorem exit_request_after_preinit_ends_the_run B fuel CmdLine p :
  let o := GuardedMain X B fuel CmdLine p in
  In (EvExitCheck AfterPreInit true) (trace_of o) ->
  result_of o = Some 0%Z
  /\ preinit_levels (trace_of o) = [0%Z]
  /\ count is_init (trace_of o) = 0
  /\ count is_tick (trace_of o) = 0
  /\ count is_exit_phase (trace_of o) = (if bIsEmbedded p then 0 else 1).
Proof.
  intros o Hin; subst o.
  apply In_pick
    with (f := fun e => match e with
                        | EvExitCheck AfterPreInit true => Some tt
                        | _ => None
                        end) (a := tt) in Hin; [| reflexivity].
  run_cases X B fuel CmdLine p.
  all: destruct (bIsEmbedded p); try discriminate.
  all: spell_out B.
  all: read Hin; try contradiction.
  all: repeat split; try tally.
  all: unfold preinit_levels; repeat rewrite pick_app;
    repeat rewrite pick_waiting by reflexivity; reflexivity.
Qed.

Ltac read_goal :=
  cbn [trace_of result_of];
  unfold loop_checks, preinit_levels, init_levels, acquisitions, releases,
    activities;
  repeat rewrite pick_app;
  repeat rewrite pick_waiting by reflexivity;
  repeat rewrite pick_iterations by reflexivity;
  repeat rewrite loop_checks_iterations;
  cbn.

(** X2: a run invokes an initialiser at most once, and only after PreInit
    returned 0 and the check after it found no exit request; nothing is
    ticked unless an initialiser has run; a build without the editor never
    calls EditorInit or EditorExit. *)
Theorem init_runs_once_after_a_clean_preinit B fuel CmdLine p :
  let t := trace_of (GuardedMain X B fuel CmdLine p) in
  count is_init t <= 1
  /\ (0 < count is_init t ->
      preinit_levels t = [0%Z] /\ In (EvExitCheck AfterPreInit false) t)
  /\ (0 < count is_tick t -> count is_init t = 1)
  /\ (WITH_EDITOR B = false ->
      count is_editor_init t = 0 /\ count is_editor_exit t = 0).
Proof.
  intros t; subst t.
  split; [| split; [| split]].
  - run_cases X B fuel CmdLine p.
    all: destruct (bIsEmbedded p); spell_out B; tally.
  - run_cases X B fuel CmdLine p; cbn [trace_of].
    1-3: intros Hpos; exfalso; revert Hpos;
      destruct (bIsEmbedded p); spell_out B; tally.
    all: intros _; split;
      [ spell_out B; read_goal; reflexivity
      | do 4 (apply in_or_app; right); apply in_or_app; left;
        left; reflexivity ].
  - run_cases X B fuel CmdLine p; cbn [trace_of].
    1-4: intros Hpos; exfalso; revert Hpos;
      destruct (bIsEmbedded p); spell_out B; tally.
    all: intros _; spell_out B; tally.
  - intros Hwe.
    run_cases X B fuel CmdLine p; cbn [trace_of].
    all: destruct (bIsEmbedded p).
    all: unfold before_preinit, epilogue, unwind, entry, init_section in *;
      destruct (PLATFORM_WINDOWS B);
      repeat match goal with
        | H : GateDone _ _ |- _ => destruct H
        | H : InitEvent _ _ _ |- _ => destruct H as [-> | [? ->]]
        | H : ?ed = true -> _ |- _ =>
            destruct ed; [specialize (H eq_refl) | clear H]
        end.
    all: try congruence.
    all: split; tally.
Qed.

(** X3: what GuardedMain returns is the error level of the last
    initialisation phase that ran: Init's if an initialiser was invoked,
    PreInit's otherwise. *)
Theorem result_is_the_last_error_level B fuel CmdLine p r :
  let o := GuardedMain X B fuel CmdLine p in
  result_of o = Some r ->
  hd_error (rev (preinit_levels (trace_of o) ++ init_levels (trace_of o)))
  = Some r.
Proof.
  intros o Hr; subst o.
  run_cases X B fuel CmdLine p; cbn [result_of] in Hr;
    try discriminate Hr; injection Hr as <-.
  all: destruct (bIsEmbedded p); try discriminate.
  all: spell_out B.
  all: read_goal; reflexivity.
Qed.

(** X4: the exit phase closes a run.  If GEngineLoop.Exit is called, the
    run returns, and its trace ends with the destructor of the guard, the
    exit request, the call of Exit and the destructor of the task tag
    scope; nothing is requested or exited before. *)
Theorem exit_phase_closes_the_run B fuel CmdLine p :
  let o := GuardedMain X B fuel CmdLine p in
  In EvLoopExit (trace_of o) ->
  result_of o <> None
  /\ exists front,
       trace_of o
       = front ++ [EvGuardDtor; EvRequestEngineExit; EvLoopExit;
                   EvCall FTaskTagScope_dtor]
       /\ count is_exit_phase front = 0
       /\ count is_exit_request front = 0.
Proof.
  intros o Hin; subst o.
  apply In_pick with (f := fun e => if is_exit_phase e then Some tt else None)
                     (a := tt) in Hin; [| reflexivity].
  run_cases X B fuel CmdLine p; cbn [trace_of result_of] in *.
  1,4,5: exfalso; spell_out B; read Hin; exact Hin.
  all: destruct (bIsEmbedded p) eqn:Hp;
    [exfalso; first [discriminate | spell_out B; read Hin; exact Hin] |].
  all: split; [discriminate |].
  - exists (entry ++ g ++ before_preinit B ++ [EvPreInit e']).
    split; [unfold unwind; repeat rewrite <- app_assoc; reflexivity |].
    split; spell_out B; tally.
  - exists (entry ++ g ++ before_preinit B
            ++ [EvPreInit 0%Z; EvExitCheck AfterPreInit true]).
    split; [unfold unwind; repeat rewrite <- app_assoc; reflexivity |].
    split; spell_out B; tally.
  - exists (entry ++ g ++ before_preinit B ++ [EvPreInit 0%Z]
            ++ init_section i ++ iterations n
            ++ [EvExitCheck LoopBoundary true] ++ epilogue ed).
    split; [unfold unwind; repeat rewrite <- app_assoc; reflexivity |].
    split; spell_out B; tally.
Qed.

(** X5: a run that returns has released its scoped resources in the
    reverse of the order in which it acquired them; a run that has not
    returned still holds the cleanup guard and the task tag scope. *)
Theorem scoped_resources_are_released_in_reverse B fuel CmdLine p :
  let o := GuardedMain X B fuel CmdLine p in
  (forall r, result_of o = Some r ->
     releases (trace_of o) = rev (acquisitions (trace_of o)))
  /\ (result_of o = None ->
      ~ In CleanupGuard (releases (trace_of o))
      /\ ~ In TaskTagScope (releases (trace_of o))).
Proof.
  intros o; subst o.
  run_cases X B fuel CmdLine p; cbn [result_of].
  all: split; [intros r Hr; try discriminate Hr
              | intros Hr; try discriminate Hr].
  all: destruct (bIsEmbedded p); try discriminate.
  all: spell_out B.
  all: read_goal; try reflexivity.
  all: split; intros Hheld;
    repeat destruct Hheld as [Hheld | Hheld]; try discriminate Hheld;
    try contradiction.
Qed.

(** X6: EditorExit is called at most once, only in a build with the
    editor and only after an initialiser has run; it comes right after the
    bookmark that ends the tick loop and right before the cleanup guard is
    destroyed, hence before the exit phase. *)
Theorem editor_exit_precedes_the_guard B fuel CmdLine p :
  let t := trace_of (GuardedMain X B fuel CmdLine p) in
  count is_editor_exit t <= 1
  /\ (In EvEditorExit t ->
      WITH_EDITOR B = true
      /\ count is_init t = 1
      /\ exists a b,
           t = a ++ [EvCall (TRACE_BOOKMARK "Tick loop end"); EvEditorExit;
                     EvGuardDtor] ++ b).
Proof.
  intros t; subst t.
  run_cases X B fuel CmdLine p; cbn [trace_of].
  all: split; [destruct (bIsEmbedded p); spell_out B; tally |].
  all: intros Hin.
  all: apply In_pick
         with (f := fun e => if is_editor_exit e then Some tt else None)
              (a := tt) in Hin; [| reflexivity].
  1-3,5: exfalso; destruct (bIsEmbedded p); spell_out B; read Hin;
    exact Hin.
  all: destruct ed;
    [| exfalso; spell_out B; read Hin; exact Hin].
  all: split; [exact (Hed eq_refl) |].
  all: split; [spell_out B; tally |].
  - exists (entry ++ g ++ before_preinit B ++ [EvPreInit 0%Z]
            ++ init_section i).
    exists [EvCall FTaskTagScope_dtor].
    unfold epilogue, unwind; repeat rewrite <- app_assoc; reflexivity.
  - exists (entry ++ g ++ before_preinit B ++ [EvPreInit 0%Z]
            ++ init_section i ++ iterations n
            ++ [EvExitCheck LoopBoundary true]).
    exists [EvRequestEngineExit; EvLoopExit; EvCall FTaskTagScope_dtor].
    unfold epilogue, unwind; repeat rewrite <- app_assoc; reflexivity.
Qed.

(** X7: the statuses published through the tracked activity follow the
    phases: "Starting" always, "Initializing" once PreInit is reached, and
    "Ticking loop" once an initialiser has run, also in an embedded run
    that never ticks. *)
Theorem activity_follows_the_phases B fuel CmdLine p :
  let t := trace_of (GuardedMain X B fuel CmdLine p) in
  activities t
  = firstn (1 + count is_preinit t + count is_init t)
      ["Starting"; "Initializing"; "Ticking loop"]%string.
Proof.
  intros t; subst t.
  run_cases X B fuel CmdLine p; cbn [trace_of].
  all: destruct (bIsEmbedded p); try discriminate.
  all: spell_out B.
  all: match goal with
       | |- _ = firstn (1 + ?a + ?b) _ =>
           first [ replace a with 0 by (symmetry; solve [tally])
                 | replace a with 1 by (symmetry; solve [tally]) ];
           first [ replace b with 0 by (symmetry; solve [tally])
                 | replace b with 1 by (symmetry; solve [tally]) ]
       end.
  all: read_goal; reflexivity.
Qed.


End Extras.

Section Gate.

Variable E : Type.
Variable X : Externals E.

Lemma trace_of_prefix A t (o : Outcome E A) :
  trace_of (prefix t o) = t ++ trace_of o.
Proof. destruct o; reflexivity. Qed.

Lemma result_of_prefix A t (o : Outcome E A) :
  result_of (prefix t o) = result_of o.
Proof. destruct o; reflexivity. Qed.

Lemma WaitForDebugger_until n : forall p fuel,
  (forall k, k < n -> debugger_seen X (polled X k p) = false) ->
  debugger_seen X (polled X n p) = true ->
  n < fuel ->
  WaitForDebugger X fuel p
  = Returned tt
      (process_of
         (invoke (IsDebuggerPresent X) EvIsDebuggerPresent (polled X n p)))
      (waiting n ++ [EvIsDebuggerPresent true]).
Proof.
  induction n as [|n IH]; intros p fuel Hlt Hn Hfuel.
  - destruct fuel as [|fuel]; [lia |].
    cbn [WaitForDebugger polled] in *; rewrite bind_invoke; cbv beta.
    unfold debugger_seen in Hn; rewrite Hn; reflexivity.
  - destruct fuel as [|fuel]; [lia |].
    cbn [WaitForDebugger]; rewrite bind_invoke; cbv beta.
    pose proof (Hlt 0 ltac:(lia)) as H0; cbn [polled] in H0.
    unfold debugger_seen in H0; rewrite H0; cbv beta iota.
    unfold call at 1; rewrite bind_invoke; cbv beta.
    match goal with
    | |- context [WaitForDebugger X fuel ?q] =>
        rewrite (IH q fuel); [reflexivity | | exact Hn | lia]
    end.
    intros k Hk; apply (Hlt (S k)); lia.
Qed.

Lemma WaitForDebugger_blocked fuel : forall p,
  (forall k, k < fuel -> debugger_seen X (polled X k p) = false) ->
  WaitForDebugger X fuel p = Running (polled X fuel p) (waiting fuel).
Proof.
  induction fuel as [|fuel IH]; intros p Hlt; [reflexivity |].
  cbn [WaitForDebugger]; rewrite bind_invoke; cbv beta.
  pose proof (Hlt 0 ltac:(lia)) as H0; cbn [polled] in H0.
  unfold debugger_seen in H0; rewrite H0; cbv beta iota.
  unfold call at 1; rewrite bind_invoke; cbv beta.
  match goal with
  | |- context [WaitForDebugger X fuel ?q] =>
      rewrite (IH q); [reflexivity |]
  end.
  intros k Hk; apply (Hlt (S k)); lia.
Qed.

(** The trace of a run starts with what the gate did. *)
Lemma GuardedMain_starts_with_the_gate B fuel CmdLine p :
  match DebugAttachGate X B fuel CmdLine (after_entry X p) with
  | Running q g => GuardedMain X B fuel CmdLine p = Running q (entry ++ g)
  | Returned _ q g =>
      exists rest,
        trace_of (GuardedMain X B fuel CmdLine p)
        = entry ++ g ++ EvCall (BootTimingPoint "DefaultMain") :: rest
  end.
Proof.
  destruct (DebugAttachGate X B fuel CmdLine (after_entry X p))
    as [[] q g | q g] eqn:Hgate.
  all: unfold GuardedMain, scoped.
  all: unfold call at 1; rewrite bind_invoke; cbv beta.
  all: unfold call at 1; rewrite bind_invoke; cbv beta.
  all: repeat rewrite bind_assoc.
  all: rewrite (bind_eq (DebugAttachGate X B fuel CmdLine)).
  all: unfold after_entry, call in Hgate; rewrite Hgate.
  - cbv beta; repeat rewrite bind_assoc.
    unfold call at 1; rewrite bind_invoke; cbv beta.
    repeat rewrite trace_of_prefix.
    eexists; cbn [app]; reflexivity.
  - reflexivity.
Qed.

Lemma gate_split (g g' r r' : list Event) x :
  forallb is_gate_event g = true ->
  forallb is_gate_event g' = true ->
  is_gate_event x = false ->
  g ++ x :: r = g' ++ x :: r' ->
  g = g' /\ r = r'.
Proof.
  revert g'; induction g as [|a g IH]; intros [|a' g'] Hg Hg' Hx Heq;
    cbn in *.
  - injection Heq as ->; auto.
  - injection Heq as <- _.
    apply andb_prop in Hg'; destruct Hg' as [Ha _]; congruence.
  - injection Heq as -> _.
    apply andb_prop in Hg; destruct Hg as [Ha _]; congruence.
  - injection Heq as <- Heq.
    apply andb_prop in Hg; apply andb_prop in Hg'.
    destruct (IH g' (proj2 Hg) (proj2 Hg') Hx Heq) as [-> ->]; auto.
Qed.

Lemma gate_events_GateDone fuel g :
  GateDone fuel g -> forallb is_gate_event g = true.
Proof.
  intros Hg; apply forallb_forall; intros x Hx.
  eapply In_GateDone; eassumption.
Qed.

Lemma count_none f (l : list Event) :
  (forall e, is_gate_event e = false -> f e = false) ->
  count is_gate_event l = 0 -> count f l = 0.
Proof.
  intros Hf; induction l as [|e l IH]; [reflexivity |].
  rewrite !count_cons.
  destruct (is_gate_event e) eqn:He; [discriminate |].
  rewrite (Hf e He); exact IH.
Qed.

(** Whatever the gate did is all a run has of polls, sleeps and breaks. *)
Lemma gate_events_of_run f B fuel CmdLine p :
  (forall e, is_gate_event e = false -> f e = false) ->
  count f (trace_of (GuardedMain X B fuel CmdLine p))
  = count f (trace_of (DebugAttachGate X B fuel CmdLine (after_entry X p))).
Proof.
  intros Hf.
  pose proof (GuardedMain_starts_with_the_gate B fuel CmdLine p) as Hlink.
  destruct (DebugAttachGate_cases X B fuel CmdLine (after_entry X p))
    as [(gt & qg & Hgt & _ & Hgate) | (qg & Hgate)];
    rewrite Hgate in Hlink |- *; cbn [trace_of].
  - destruct Hlink as [rest Hrest].
    pose proof (gate_events_GateDone Hgt) as Hgev.
    assert (Hshape :
      exists tail,
        trace_of (GuardedMain X B fuel CmdLine p)
        = entry ++ gt ++ EvCall (BootTimingPoint "DefaultMain") :: tail
        /\ count is_gate_event tail = 0).
    { revert Hrest.
      run_cases X B fuel CmdLine p; cbn [trace_of]; intros Hrest.
      1: { apply app_inv_head in Hrest.
           exfalso; destruct Hgt as [|n Hn]; cbn [app] in Hrest.
           - destruct fuel; discriminate Hrest.
           - assert (Hc : count is_debug_break (waiting fuel)
                          = count is_debug_break
                              ((waiting n
                                ++ [EvIsDebuggerPresent true;
                                    EvCall UE_DEBUG_BREAK])
                               ++ EvCall (BootTimingPoint "DefaultMain")
                                  :: rest))
               by (rewrite Hrest; reflexivity).
             repeat rewrite count_app in Hc.
             repeat rewrite count_waiting in Hc.
             rewrite !count_cons in Hc; cbn in Hc; lia. }
      all: apply app_inv_head in Hrest.
      all: unfold before_preinit in Hrest |- *; cbn [app] in Hrest |- *.
      all: destruct (@gate_split g gt _ _
                       (EvCall (BootTimingPoint "DefaultMain"))
                       (gate_events_GateDone Hg) Hgev eq_refl Hrest)
             as [-> _].
      all: eexists; split; [reflexivity |].
      all: clear Hgt Hgev Hrest Hgate.
      all: destruct (bIsEmbedded p); spell_out B; tally. }
    destruct Hshape as (tail & -> & Htail).
    change (EvCall (BootTimingPoint "DefaultMain") :: tail)
      with ([EvCall (BootTimingPoint "DefaultMain")] ++ tail).
    repeat rewrite count_app.
    rewrite (count_none f tail Hf Htail).
    rewrite (@count_none f entry Hf eq_refl).
    rewrite (@count_none f [EvCall (BootTimingPoint "DefaultMain")] Hf
               eq_refl).
    lia.
  - rewrite Hlink; cbn [trace_of].
    rewrite count_app, (@count_none f entry Hf eq_refl); reflexivity.
Qed.

Lemma DebugAttachGate_off B fuel CmdLine q :
  gate_armed X B CmdLine = false ->
  DebugAttachGate X B fuel CmdLine q = Returned tt q [].
Proof.
  unfold gate_armed, DebugAttachGate, when.
  destruct (negb (UE_BUILD_SHIPPING B)); [| reflexivity].
  cbn [andb]; intros ->; reflexivity.
Qed.

Lemma DebugAttachGate_on B fuel CmdLine q :
  gate_armed X B CmdLine = true ->
  DebugAttachGate X B fuel CmdLine q
  = bind (WaitForDebugger X fuel) (fun _ => call X UE_DEBUG_BREAK) q.
Proof.
  unfold gate_armed, DebugAttachGate, when.
  destruct (negb (UE_BUILD_SHIPPING B)); [| discriminate].
  cbn [andb]; intros ->; reflexivity.
Qed.

(** X9: in a shipping build, or when neither flag is on the command line,
    a run never asks for a debugger, never sleeps and never breaks. *)
Theorem unarmed_gate_never_waits B fuel CmdLine p :
  gate_armed X B CmdLine = false ->
  count is_gate_event (trace_of (GuardedMain X B fuel CmdLine p)) = 0.
Proof.
  intros Hoff.
  rewrite gate_events_of_run by auto.
  rewrite DebugAttachGate_off by exact Hoff; reflexivity.
Qed.

(** X10: with the gate armed and no debugger ever present, the launcher
    stays in the gate for any amount of fuel: it only polls and sleeps,
    and nothing else of GuardedMain happens, not even the exit phase. *)
Theorem absent_debugger_blocks_the_launcher B CmdLine p :
  gate_armed X B CmdLine = true ->
  (forall k, debugger_seen X (polled X k (after_entry X p)) = false) ->
  forall fuel,
    GuardedMain X B fuel CmdLine p
    = Running (polled X fuel (after_entry X p)) (entry ++ waiting fuel).
Proof.
  intros Hon Habsent fuel.
  pose proof (GuardedMain_starts_with_the_gate B fuel CmdLine p) as Hlink.
  rewrite DebugAttachGate_on in Hlink by exact Hon.
  rewrite bind_eq, WaitForDebugger_blocked in Hlink by auto.
  exact Hlink.
Qed.

(** X11: with the gate armed and the debugger first present at poll [n],
    the launcher sleeps exactly [n] times, breaks exactly once, right after
    the poll that found the debugger, and goes on with the boot timing
    point. *)
Theorem attached_debugger_opens_the_gate B fuel CmdLine p n :
  gate_armed X B CmdLine = true ->
  (forall k, k < n ->
     debugger_seen X (polled X k (after_entry X p)) = false) ->
  debugger_seen X (polled X n (after_entry X p)) = true ->
  n < fuel ->
  let t := trace_of (GuardedMain X B fuel CmdLine p) in
  count is_sleep t = n
  /\ count is_debug_break t = 1
  /\ exists rest,
       t = entry ++ waiting n
           ++ [EvIsDebuggerPresent true; EvCall UE_DEBUG_BREAK;
               EvCall (BootTimingPoint "DefaultMain")] ++ rest.
Proof.
  intros Hon Hwait Hseen Hfuel t; subst t.
  assert (Hgate :
    exists q,
      DebugAttachGate X B fuel CmdLine (after_entry X p)
      = Returned tt q
          (waiting n ++ [EvIsDebuggerPresent true; EvCall UE_DEBUG_BREAK])).
  { rewrite DebugAttachGate_on by exact Hon.
    rewrite bind_eq, (@WaitForDebugger_until n _ fuel Hwait Hseen Hfuel).
    cbv beta; unfold call, invoke; cbn [prefix].
    destruct (value (platform X UE_DEBUG_BREAK _)).
    eexists; rewrite <- app_assoc; reflexivity. }
  destruct Hgate as [q Hgate].
  split; [| split].
  - rewrite gate_events_of_run
      by (intros [[]| | | | | | | | | | |]; cbn; congruence).
    rewrite Hgate; cbn [trace_of].
    rewrite count_app, count_waiting; cbn; lia.
  - rewrite gate_events_of_run
      by (intros [[]| | | | | | | | | | |]; cbn; congruence).
    rewrite Hgate; cbn [trace_of].
    rewrite count_app, count_waiting; cbn; lia.
  - pose proof (GuardedMain_starts_with_the_gate B fuel CmdLine p) as Hlink.
    rewrite Hgate in Hlink; destruct Hlink as [rest ->].
    exists rest; repeat rewrite <- app_assoc; reflexivity.
Qed.

(** X15: an embedded run whose gate is not armed always returns, whatever
    the fuel: outside its two loops the launcher has nothing to wait for. *)
Theorem embedded_run_without_gate_returns B fuel CmdLine p :
  gate_armed X B CmdLine = false ->
  bIsEmbedded p = true ->
  exists r q t, GuardedMain X B fuel CmdLine p = Returned r q t.
Proof.
  intros Hoff Hp.
  pose proof (GuardedMain_starts_with_the_gate B fuel CmdLine p) as Hlink.
  rewrite DebugAttachGate_off in Hlink by exact Hoff.
  destruct Hlink as [rest Hrest]; revert Hrest.
  run_cases X B fuel CmdLine p; cbn [trace_of]; intros Hrest.
  - apply app_inv_head in Hrest; destruct fuel; discriminate Hrest.
  - eauto.
  - eauto.
  - eauto.
  - congruence.
  - congruence.
Qed.

End Gate.

Section Keep.

Variable E : Type.
Variable X : Externals E.

Lemma process_of_prefix A t (o : Outcome E A) :
  process_of (prefix t o) = process_of o.
Proof. destruct o; reflexivity. Qed.

Lemma keeps_ret A (a : A) : keeps_request (@ret E A a).
Proof. intros p Hp; split; [exact Hp | reflexivity]. Qed.

Lemma keeps_bind A C (m : M E A) (k : A -> M E C) :
  keeps_request m -> (forall a, keeps_request (k a)) ->
  keeps_request (bind m k).
Proof.
  intros Hm Hk p Hp; rewrite bind_eq.
  destruct (Hm p Hp) as [Hf Ht].
  destruct (m p) as [a p1 t1 | p1 t1]; cbn [process_of trace_of] in *;
    [| auto].
  destruct (Hk a p1 Hf) as [Hf' Ht'].
  rewrite process_of_prefix, trace_of_prefix, forallb_app, Ht, Ht'; auto.
Qed.

Lemma keeps_invoke A (op : Op E A) ev :
  (forall a, reads_pending (ev a) = true) -> keeps_request (invoke op ev).
Proof.
  intros Hev p Hp; cbn; rewrite Hp, Hev; auto.
Qed.

Lemma keeps_call c : keeps_request (call X c).
Proof. apply keeps_invoke; reflexivity. Qed.

Lemma keeps_emit e : reads_pending e = true -> keeps_request (@emit E e).
Proof. intros He p Hp; cbn; rewrite He; auto. Qed.

Lemma keeps_check site : keeps_request (@IsEngineExitRequested E site).
Proof. intros p Hp; cbn; rewrite Hp; auto. Qed.

Lemma keeps_read A (f : Process E -> A) :
  keeps_request (fun q => ret (f q) q).
Proof. intros p Hp; split; [exact Hp | reflexivity]. Qed.

Lemma keeps_when b (m : M E unit) :
  keeps_request m -> keeps_request (when b m).
Proof. destruct b; [auto | intros _; apply keeps_ret]. Qed.

Lemma keeps_spin A : keeps_request (@spin E A).
Proof. intros p Hp; split; [exact Hp | reflexivity]. Qed.

Lemma keeps_EngineExit : keeps_request (EngineExit X).
Proof.
  apply keeps_bind.
  - intros p Hp; split; reflexivity.
  - intros _; apply keeps_invoke; reflexivity.
Qed.

Lemma keeps_dtor : keeps_request (CleanupGuard_dtor X).
Proof.
  apply keeps_bind; [apply keeps_emit; reflexivity |].
  intros _ p Hp.
  exact (keeps_when (negb (bIsEmbedded p)) keeps_EngineExit p Hp).
Qed.

Lemma keeps_WaitForDebugger fuel : keeps_request (WaitForDebugger X fuel).
Proof.
  induction fuel as [|fuel IH]; [apply keeps_spin |].
  cbn [WaitForDebugger].
  apply keeps_bind; [apply keeps_invoke; reflexivity |].
  intros [|]; [apply keeps_ret |].
  apply keeps_bind; [apply keeps_call | intros _; exact IH].
Qed.

Lemma keeps_TickLoop fuel : keeps_request (TickLoop X fuel).
Proof.
  induction fuel as [|fuel IH]; [apply keeps_spin |].
  cbn [TickLoop].
  apply keeps_bind; [apply keeps_check |].
  intros [|]; [apply keeps_ret |].
  apply keeps_bind; [apply keeps_invoke; reflexivity | intros _; exact IH].
Qed.

Lemma keeps_gate B fuel CmdLine :
  keeps_request (DebugAttachGate X B fuel CmdLine).
Proof.
  unfold DebugAttachGate.
  do 2 apply keeps_when.
  apply keeps_bind; [apply keeps_WaitForDebugger | intros _; apply keeps_call].
Qed.

Ltac keep :=
  repeat first
    [ apply keeps_call | apply keeps_ret | apply keeps_check
    | apply keeps_gate | apply keeps_dtor | apply keeps_TickLoop
    | apply keeps_read
    | apply keeps_emit; reflexivity
    | apply keeps_invoke; reflexivity
    | apply keeps_when
    | apply keeps_bind; [| intros ?]
    | match goal with
      | |- keeps_request (if ?b then _ else _) => destruct b
      end ].

Lemma keeps_GuardedMain B fuel CmdLine :
  keeps_request (GuardedMain X B fuel CmdLine).
Proof.
  unfold GuardedMain, scoped, EnginePreInit, EngineInit, InEditor.
  keep.
Qed.

(** X12: when an exit request is already pending as GuardedMain is
    entered, no initialiser and no tick is ever invoked and the tick loop
    is not reached; the request is still pending at the end; a run that
    returns has called PreInit, returns its error level, and has run the
    exit phase once unless embedded. *)
Theorem pending_request_keeps_the_engine_from_starting B fuel CmdLine p :
  GIsRequestingExit p = true ->
  let o := GuardedMain X B fuel CmdLine p in
  count is_init (trace_of o) = 0
  /\ count is_tick (trace_of o) = 0
  /\ loop_checks (trace_of o) = []
  /\ GIsRequestingExit (process_of o) = true
  /\ (forall r, result_of o = Some r ->
        preinit_levels (trace_of o) = [r]
        /\ count is_exit_phase (trace_of o)
           = (if bIsEmbedded p then 0 else 1)).
Proof.
  intros Hp o; subst o.
  destruct (keeps_GuardedMain B fuel CmdLine p Hp) as [Hflag Hreads].
  assert (Hnone : ~ In (EvExitCheck AfterPreInit false)
                      (trace_of (GuardedMain X B fuel CmdLine p))).
  { intros Hin.
    rewrite forallb_forall in Hreads.
    specialize (Hreads _ Hin); discriminate Hreads. }
  split; [| split; [| split; [| split; [exact Hflag |]]]].
  all: clear Hflag Hreads; revert Hnone.
  all: run_cases X B fuel CmdLine p; cbn [trace_of result_of]; intros Hnone.
  all: try (exfalso; apply Hnone;
            do 4 (apply in_or_app; right); apply in_or_app; left;
            left; reflexivity).
  all: clear Hnone; destruct (bIsEmbedded p); spell_out B.
  all: try solve [tally].
  all: try (unfold loop_checks; repeat rewrite pick_app;
            repeat rewrite pick_waiting by reflexivity; reflexivity).
  all: intros r Hr; try discriminate Hr; injection Hr as <-.
  all: split; [| solve [tally]].
  all: unfold preinit_levels; repeat rewrite pick_app;
    repeat rewrite pick_waiting by reflexivity; reflexivity.
Qed.

(** X13: the tick loop has no cap of its own.  As long as no tick raises
    the exit request the loop is still running after any number of ticks,
    in the state these ticks left. *)
Theorem TickLoop_has_no_cap fuel : forall p,
  (forall k, GIsRequestingExit (ticked X k p) = false) ->
  TickLoop X fuel p = Running (ticked X fuel p) (iterations fuel).
Proof.
  induction fuel as [|fuel IH]; intros p Hnever; [reflexivity |].
  cbn [TickLoop]; rewrite bind_check.
  pose proof (Hnever 0) as H0; cbn [ticked] in H0; rewrite H0.
  cbv beta iota.
  unfold EngineTick at 1; rewrite bind_invoke; cbv beta.
  match goal with
  | |- context [TickLoop X fuel ?q] => rewrite (IH q); [reflexivity |]
  end.
  intros k; exact (Hnever (S k)).
Qed.










End Keep.

(** ** The launcher on concrete runs *)

Ltac find_in := vm_compute; repeat first [left; reflexivity | right].

(** PreInit fails with 7: the run returns 7 without Init or ticks, and the
    exit phase runs once. *)
Lemma preinit_failure_ends_the_run_witness :
  In (EvPreInit 7) (trace_of preinit_fails_run)
  /\ 7%Z <> 0%Z
  /\ result_of preinit_fails_run = Some 7%Z
  /\ count is_init (trace_of preinit_fails_run) = 0
  /\ count is_tick (trace_of preinit_fails_run) = 0
  /\ count is_exit_phase (trace_of preinit_fails_run) = 1.
Proof.
  assert (H1 : In (EvPreInit 7) (trace_of preinit_fails_run)) by find_in.
  assert (H2 : 7%Z <> 0%Z) by discriminate.
  split; [exact H1 | split; [exact H2 |]].
  exact (preinit_failure_ends_the_run (scripted preinit_fails) Development
           10 "" (fresh false) H1 H2).
Defined.

(** An embedded run neither ticks nor exits. *)
Lemma embedded_run_neither_ticks_nor_exits_witness :
  bIsEmbedded (fresh true) = true
  /\ count is_tick (trace_of embedded_run) = 0
  /\ loop_checks (trace_of embedded_run) = []
  /\ count is_exit_request (trace_of embedded_run) = 0
  /\ count is_exit_phase (trace_of embedded_run) = 0
  /\ CleanupGuard_dtor (scripted three_frames) (fresh true)
     = Returned tt (fresh true) [EvGuardDtor].
Proof.
  split; [reflexivity |].
  exact (embedded_run_neither_ticks_nor_exits (scripted three_frames)
           Development 10 "" (fresh true) eq_refl).
Defined.

(** Init fails with 5 in a run that is not embedded: the loop is entered,
    and the run returns 5 once the loop has seen the exit request. *)
Lemma init_failure_does_not_gate_the_tick_loop_witness :
  In 5%Z (init_levels (trace_of init_fails_run))
  /\ 5%Z <> 0%Z
  /\ bIsEmbedded (fresh false) = false
  /\ 0 < 10
  /\ In true (loop_checks (trace_of init_fails_run))
  /\ tick_loop_entered (trace_of init_fails_run)
  /\ result_of init_fails_run = Some 5%Z.
Proof.
  assert (H1 : In 5%Z (init_levels (trace_of init_fails_run)))
    by (vm_compute; left; reflexivity).
  assert (H2 : 5%Z <> 0%Z) by discriminate.
  assert (H3 : In true (loop_checks (trace_of init_fails_run)))
    by (vm_compute; do 2 right; left; reflexivity).
  destruct (init_failure_does_not_gate_the_tick_loop
              (scripted init_fails) Development 10 "" (fresh false) H1 H2)
    as (_ & Hrun & _).
  destruct (Hrun eq_refl) as [Hentered Hreturns].
  split; [exact H1 |].
  split; [exact H2 |].
  split; [reflexivity |].
  split; [apply Nat.lt_0_succ |].
  split; [exact H3 |].
  split; [exact (Hentered (Nat.lt_0_succ 9)) | exact (Hreturns H3)].
Defined.

(** Init fails with 5 in an embedded run: the premises of the claim hold,
    the tick loop is not entered. *)
Lemma embedded_init_failure_skips_the_tick_loop :
  In 0%Z (preinit_levels (trace_of embedded_init_fails_run))
  /\ In (EvExitCheck AfterPreInit false) (trace_of embedded_init_fails_run)
  /\ In 5%Z (init_levels (trace_of embedded_init_fails_run))
  /\ 5%Z <> 0%Z
  /\ ~ tick_loop_entered (trace_of embedded_init_fails_run)
  /\ count is_tick (trace_of embedded_init_fails_run) = 0
  /\ result_of embedded_init_fails_run = Some 5%Z.
Proof.
  split; [vm_compute; left; reflexivity |].
  split; [vm_compute; repeat first [left; reflexivity | right] |].
  split; [vm_compute; left; reflexivity |].
  split; [discriminate |].
  split; [| split; reflexivity].
  rewrite tick_loop_entered_iff; intros H; apply H; reflexivity.
Qed.

(** A pending request stops the loop before the first tick; a request made
    by the third tick lets it finish and stops the loop before a fourth. *)
Lemma exit_request_is_read_between_ticks_witness :
  (GIsRequestingExit pending = true
   /\ 0 < 10
   /\ TickLoop (scripted three_frames) 10 pending
      = Returned tt pending [EvExitCheck LoopBoundary true])
  /\ (GIsRequestingExit (ticked (scripted three_frames) 2 (fresh false))
      = false
      /\ GIsRequestingExit (ticked (scripted three_frames) 3 (fresh false))
         = true
      /\ 3 < 10
      /\ TickLoop (scripted three_frames) 10 (fresh false)
         = Returned tt (ticked (scripted three_frames) 3 (fresh false))
             (iterations 3 ++ [EvExitCheck LoopBoundary true]))
  /\ (hd_error (loop_checks (trace_of quit_before_loop_run)) = Some true
      /\ count is_tick (trace_of quit_before_loop_run) = 0).
Proof.
  destruct (exit_request_is_read_between_ticks (scripted three_frames))
    as (Ha & Hb & _).
  destruct (exit_request_is_read_between_ticks (scripted quit_before_loop))
    as (_ & _ & Hc).
  split; [| split].
  - split; [reflexivity | split; [lia |]].
    exact (Ha 10 pending eq_refl ltac:(lia)).
  - split; [reflexivity | split; [reflexivity | split; [lia |]]].
    exact (Hb 10 (fresh false) 2 eq_refl eq_refl ltac:(lia)).
  - split; [reflexivity |].
    exact (proj1 (Hc Development 10 ""%string (fresh false)) eq_refl).
Defined.

(** Three checks read false, the fourth reads true: three ticks, result 0. *)
Lemma three_checks_then_exit_witness :
  In 0%Z (preinit_levels (trace_of three_frames_run))
  /\ In 0%Z (init_levels (trace_of three_frames_run))
  /\ bIsEmbedded (fresh false) = false
  /\ loop_checks (trace_of three_frames_run) = [false; false; false; true]
  /\ count is_tick (trace_of three_frames_run) = 3
  /\ result_of three_frames_run = Some 0%Z.
Proof.
  assert (H1 : In 0%Z (preinit_levels (trace_of three_frames_run)))
    by (vm_compute; left; reflexivity).
  assert (H2 : In 0%Z (init_levels (trace_of three_frames_run)))
    by (vm_compute; left; reflexivity).
  assert (H3 : loop_checks (trace_of three_frames_run)
               = [false; false; false; true]) by reflexivity.
  split; [exact H1 |].
  split; [exact H2 |].
  split; [reflexivity |].
  split; [exact H3 |].
  exact (three_checks_then_exit (scripted three_frames) Development 10
           "-waitforattach" (fresh false) H1 H2 eq_refl H3).
Defined.

(** In the run whose PreInit fails the task tag scope is acquired first and
    released last, not the cleanup guard. *)
Lemma task_tag_scope_outlives_the_cleanup_guard :
  acquisitions (trace_of preinit_fails_run) = [TaskTagScope; CleanupGuard]
  /\ releases (trace_of preinit_fails_run) = [CleanupGuard; TaskTagScope]
  /\ ~ guard_first_in_last_out (trace_of preinit_fails_run).
Proof.
  split; [reflexivity | split; [reflexivity |]].
  intros [H _]; vm_compute in H; discriminate H.
Qed.

(** A run that starts with an exit request pending returns after PreInit;
    the guard is released before the task tag scope and the exit phase runs
    once. *)
Lemma cleanup_guard_released_before_task_tag_scope_witness :
  result_of pending_run = Some 0%Z
  /\ GIsRequestingExit pending = true
  /\ bIsEmbedded pending = false
  /\ (exists inner front,
        acquisitions (trace_of pending_run)
        = [TaskTagScope; CleanupGuard] ++ inner
        /\ releases (trace_of pending_run)
           = inner ++ [CleanupGuard; TaskTagScope]
        /\ trace_of pending_run = front ++ unwind false
        /\ count is_exit_phase front = 0)
  /\ (exists p',
        CleanupGuard_dtor (scripted three_frames) pending
        = Returned tt p' [EvGuardDtor; EvRequestEngineExit; EvLoopExit]
        /\ GIsRequestingExit p' = true).
Proof.
  destruct (cleanup_guard_released_before_task_tag_scope
              (scripted three_frames) Development 10 "" pending)
    as [Hscopes Hdtor].
  split; [reflexivity | split; [reflexivity | split; [reflexivity |]]].
  split; [exact (Hscopes 0%Z eq_refl) | exact (Hdtor eq_refl eq_refl)].
Defined.

(** The run of three frames executes the exit phase: the request is raised
    once, right before it, and is pending at the end. *)
Lemma EngineExit_requests_exit_first_witness :
  In EvLoopExit (trace_of three_frames_run)
  /\ GIsRequestingExit (process_of three_frames_run) = true
  /\ count is_exit_request (trace_of three_frames_run) = 1
  /\ exists before after,
       trace_of three_frames_run
       = before ++ [EvRequestEngineExit; EvLoopExit] ++ after.
Proof.
  assert (H1 : In EvLoopExit (trace_of three_frames_run))
    by (vm_compute; repeat first [left; reflexivity | right]).
  split; [exact H1 |].
  exact (proj2 (proj2 (EngineExit_requests_exit_first
                         (scripted three_frames) (fresh false)))
           Development 10 "-waitforattach"%string H1).
Defined.

(** ** Further concrete runs *)

Lemma quiet_never_requests k : forall p,
  GIsRequestingExit (ticked quiet k p) = GIsRequestingExit p.
Proof.
  induction k as [|k IH]; intros p; [reflexivity |].
  cbn [ticked]; rewrite IH; cbn; apply orb_false_r.
Qed.

Lemma pending_run_leaves_after_preinit :
  In (EvExitCheck AfterPreInit true) (trace_of pending_run)
  /\ result_of pending_run = Some 0%Z
  /\ preinit_levels (trace_of pending_run) = [0%Z]
  /\ count is_init (trace_of pending_run) = 0
  /\ count is_tick (trace_of pending_run) = 0
  /\ count is_exit_phase (trace_of pending_run) = 1.
Proof.
  assert (H1 : In (EvExitCheck AfterPreInit true) (trace_of pending_run))
    by find_in.
  split; [exact H1 |].
  exact (exit_request_after_preinit_ends_the_run (scripted three_frames)
           Development 10 "" pending H1).
Defined.

Lemma init_fails_run_returns_the_last_level :
  result_of init_fails_run = Some 5%Z
  /\ hd_error (rev (preinit_levels (trace_of init_fails_run)
                    ++ init_levels (trace_of init_fails_run)))
     = Some 5%Z.
Proof.
  assert (H1 : result_of init_fails_run = Some 5%Z)
    by (vm_compute; reflexivity).
  split; [exact H1 |].
  exact (result_is_the_last_error_level (scripted init_fails) Development
           10 "" (fresh false) (r := 5%Z) H1).
Defined.

Lemma three_frames_run_ends_with_the_exit_phase :
  In EvLoopExit (trace_of three_frames_run)
  /\ result_of three_frames_run <> None
  /\ exists front,
       trace_of three_frames_run
       = front ++ [EvGuardDtor; EvRequestEngineExit; EvLoopExit;
                   EvCall FTaskTagScope_dtor]
       /\ count is_exit_phase front = 0
       /\ count is_exit_request front = 0.
Proof.
  assert (H1 : In EvLoopExit (trace_of three_frames_run)) by find_in.
  split; [exact H1 |].
  exact (exit_phase_closes_the_run (scripted three_frames) Development 10
           "-waitforattach" (fresh false) H1).
Defined.

Lemma embedded_editor_run_exits_the_editor :
  In EvEditorExit (trace_of embedded_editor_run)
  /\ WITH_EDITOR EditorBuild = true
  /\ count is_init (trace_of embedded_editor_run) = 1
  /\ exists a b,
       trace_of embedded_editor_run
       = a ++ [EvCall (TRACE_BOOKMARK "Tick loop end"); EvEditorExit;
               EvGuardDtor] ++ b.
Proof.
  assert (H1 : In EvEditorExit (trace_of embedded_editor_run)) by find_in.
  split; [exact H1 |].
  exact (proj2 (editor_exit_precedes_the_guard quiet EditorBuild 10 ""
                  (fresh true)) H1).
Defined.

Lemma shipping_run_never_waits :
  gate_armed (scripted three_frames) Shipping "-waitforattach" = false
  /\ count is_gate_event (trace_of shipping_run) = 0.
Proof.
  split; [reflexivity |].
  exact (unarmed_gate_never_waits (scripted three_frames) Shipping 10
           "-waitforattach" (fresh false) eq_refl).
Defined.

Lemma quiet_launcher_is_blocked :
  gate_armed quiet EditorBuild "-WaitForDebugger" = true
  /\ (forall k,
        debugger_seen quiet (polled quiet k (after_entry quiet (fresh false)))
        = false)
  /\ GuardedMain quiet EditorBuild 4 "-WaitForDebugger" (fresh false)
     = Running (polled quiet 4 (after_entry quiet (fresh false)))
         (entry ++ waiting 4).
Proof.
  assert (H1 : forall k,
            debugger_seen quiet
              (polled quiet k (after_entry quiet (fresh false))) = false)
    by (intros k; reflexivity).
  split; [reflexivity | split; [exact H1 |]].
  exact (absent_debugger_blocks_the_launcher quiet EditorBuild
           "-WaitForDebugger" (fresh false) eq_refl H1 4).
Defined.

Lemma three_frames_run_waits_twice :
  gate_armed (scripted three_frames) Development "-waitforattach" = true
  /\ debugger_seen (scripted three_frames)
       (polled (scripted three_frames) 2
          (after_entry (scripted three_frames) (fresh false))) = true
  /\ 2 < 10
  /\ count is_sleep (trace_of three_frames_run) = 2
  /\ count is_debug_break (trace_of three_frames_run) = 1
  /\ exists rest,
       trace_of three_frames_run
       = entry ++ waiting 2
         ++ [EvIsDebuggerPresent true; EvCall UE_DEBUG_BREAK;
             EvCall (BootTimingPoint "DefaultMain")] ++ rest.
Proof.
  assert (H1 : forall k, k < 2 ->
            debugger_seen (scripted three_frames)
              (polled (scripted three_frames) k
                 (after_entry (scripted three_frames) (fresh false)))
            = false)
    by (intros [|[|k]] Hk; [reflexivity | reflexivity | lia]).
  assert (H2 : 2 < 10) by (repeat constructor).
  split; [reflexivity | split; [reflexivity | split; [exact H2 |]]].
  exact (attached_debugger_opens_the_gate (scripted three_frames)
           Development "-waitforattach" (fresh false) eq_refl H1 eq_refl
           H2).
Defined.

Lemma pending_run_never_starts_the_engine :
  GIsRequestingExit pending = true
  /\ result_of pending_run = Some 0%Z
  /\ count is_init (trace_of pending_run) = 0
  /\ count is_tick (trace_of pending_run) = 0
  /\ loop_checks (trace_of pending_run) = []
  /\ GIsRequestingExit (process_of pending_run) = true
  /\ preinit_levels (trace_of pending_run) = [0%Z]
  /\ count is_exit_phase (trace_of pending_run) = 1.
Proof.
  destruct (pending_request_keeps_the_engine_from_starting
              (scripted three_frames) Development 10 "" pending eq_refl)
    as (Hinit & Htick & Hloop & Hflag & Hret).
  destruct (Hret 0%Z eq_refl) as [Hpre Hexit].
  repeat (split; [first [reflexivity | assumption] |]).
  exact Hexit.
Defined.

Lemma quiet_loop_keeps_ticking :
  (forall k, GIsRequestingExit (ticked quiet k (fresh false)) = false)
  /\ TickLoop quiet 5 (fresh false)
     = Running (ticked quiet 5 (fresh false)) (iterations 5).
Proof.
  assert (H1 : forall k,
            GIsRequestingExit (ticked quiet k (fresh false)) = false)
    by (intros k; apply quiet_never_requests).
  split; [exact H1 |].
  exact (TickLoop_has_no_cap quiet 5 (fresh false) H1).
Defined.


Lemma embedded_editor_run_returns :
  gate_armed quiet EditorBuild "" = false
  /\ bIsEmbedded (fresh true) = true
  /\ exists r q t,
       GuardedMain quiet EditorBuild 0 "" (fresh true) = Returned r q t.
Proof.
  split; [reflexivity | split; [reflexivity |]].
  exact (embedded_run_without_gate_returns quiet EditorBuild 0 ""
           (fresh true) eq_refl eq_refl).
Defined.
